(** * DCIMG: a shallow embedding of [dcimg.py]

    The module [dcimg.py] reads Hamamatsu DCIMG files through a memory
    mapping.  This development embeds the class [DCIMGFile] as state-passing
    functions over a record holding the instance attributes, with Python
    exceptions as an error result, and proves properties of the header
    parser, of the timestamp decoder and of the layer and frame accessors. *)

From Stdlib Require Import ZArith List Lia.
From Stdlib.Strings Require Import String Ascii Byte.
From Stdlib Require Import DecimalString PrimFloat Uint63.
From stdpp Require Import base list.
Import ListNotations.

Local Open Scope Z_scope.

(** ** Python values used by the module *)

(** The exceptions that the module or the library calls it makes can
    raise.  The messages of the library's exceptions are given in short. *)
Inductive exn : Type :=
| RuntimeError (msg : string)
| ValueError (msg : string)
| TypeError (msg : string)
| KeyError (key : string)
| IndexError (msg : string).

(** The outcome of a call: a value, an exception, or [Beyond] when the call
    leaves what the file and the program determine: NumPy then works on
    memory that is not the mapping's (an array allocated without a buffer, a
    view placed before the start of the mapping) or on the default
    floating-point element type of an instance that has no pixel type. *)
Inductive result (A : Type) : Type :=
| Ok (a : A)
| Raise (e : exn)
| Beyond.
Arguments Ok {A} a.
Arguments Raise {A} e.
Arguments Beyond {A}.

(** [bytes] objects. *)
Abbreviation bytes := (list byte) (only parsing).

Definition b_ (s : string) : bytes := list_byte_of_string s.

#[global] Instance byte_eq_decision : EqDecision byte := Byte.byte_eq_dec.

(** Equality of two [bytes] objects. *)
Definition bytes_eqb (x y : bytes) : bool :=
  bool_decide (x = y).

(** [int.from_bytes(bs, 'little')], which is also how NumPy reads the
    little-endian unsigned fields [<u4] and [<u8]. *)
Fixpoint from_bytes_little (bs : bytes) : Z :=
  match bs with
  | [] => 0
  | b :: bs' => Z.of_N (Byte.to_N b) + 256 * from_bytes_little bs'
  end.

(** Python's [seq[lo:hi]] with integer bounds: negative bounds count from the
    end and both bounds are clamped to the sequence. *)
Definition slice_bound (n i : Z) : Z :=
  if i <? 0 then Z.max 0 (i + n) else Z.min i n.

Definition py_slice {A} (l : list A) (lo hi : Z) : list A :=
  let n := Z.of_nat (length l) in
  let lo' := slice_bound n lo in
  let hi' := slice_bound n hi in
  take (Z.to_nat (hi' - lo')) (drop (Z.to_nat lo') l).

(** [str(n)] for an integer. *)
Definition str_of_Z (z : Z) : string :=
  NilZero.string_of_int (Z.to_int z).

(** Arithmetic of NumPy's fixed-width scalars wraps around.  Two unsigned
    32-bit scalars give an unsigned 32-bit one, an unsigned 32-bit and an
    unsigned 64-bit one give an unsigned 64-bit one, and a 32-bit scalar
    with a Python integer gives a signed 64-bit one (the Python integers
    that take part are taken to fit in 64 bits). *)
Definition wrap32 (z : Z) : Z := z mod 2 ^ 32.
Definition wrap64 (z : Z) : Z := z mod 2 ^ 64.
Definition i64 (z : Z) : Z := (z + 2 ^ 63) mod 2 ^ 64 - 2 ^ 63.

(** ** The mapping *)

(** An [mmap] object is either mapped, holding the (private, copy-on-write)
    bytes of the file, or closed. *)
Inductive mmap : Type :=
| Mapped (data : bytes)
| Closed.

(** ** Header records *)

(** One element of an array of dtype [FILE_HDR_DTYPE] (72 bytes). *)
Record file_hdr : Type := {
  fh_file_format : bytes;       (* 'S8' *)
  fh_format_version : Z;        (* '<u4', 0x08 *)
  fh_skip : bytes;              (* '5<u4', 0x0c *)
  fh_nsess : Z;                 (* '<u4', 0x20 *)
  fh_nfrms : Z;                 (* '<u4', 0x24 *)
  fh_header_size : Z;           (* '<u4', 0x28 *)
  fh_skip2 : Z;                 (* '<u4', 0x2c *)
  fh_file_size : Z;             (* '<u8', 0x30 *)
  fh_skip3 : bytes;             (* '2<u4', 0x38 *)
  fh_file_size2 : Z;            (* '<u8', 0x40 *)
}.

(** One element of an array of dtype [SESS_HDR_DTYPE] (80 bytes). *)
Record sess_hdr : Type := {
  sh_session_size : Z;          (* '<u8' *)
  sh_skip1 : bytes;             (* '6<u4' *)
  sh_nfrms : Z;                 (* '<u4' *)
  sh_byte_depth : Z;            (* '<u4' *)
  sh_skip2 : Z;                 (* '<u4' *)
  sh_xsize : Z;                 (* '<u4' *)
  sh_bytes_per_row : Z;         (* '<u4' *)
  sh_ysize : Z;                 (* '<u4' *)
  sh_bytes_per_img : Z;         (* '<u4' *)
  sh_skip3 : bytes;             (* '2<u4' *)
  sh_header_size : Z;           (* '1<u4' *)
  sh_session_data_size : Z;     (* '<u8' *)
}.

Definition FILE_HDR_nbytes : Z := 72.
Definition SESS_HDR_nbytes : Z := 80.

(** The bytes of a field at offset [off] of width [w] in one record. *)
Definition field (raw : bytes) (off w : nat) : bytes :=
  take w (drop off raw).

Definition ufield (raw : bytes) (off w : nat) : Z :=
  from_bytes_little (field raw off w).

Definition decode_file_hdr (raw : bytes) : file_hdr :=
  {| fh_file_format := field raw 0 8;
     fh_format_version := ufield raw 8 4;
     fh_skip := field raw 12 20;
     fh_nsess := ufield raw 32 4;
     fh_nfrms := ufield raw 36 4;
     fh_header_size := ufield raw 40 4;
     fh_skip2 := ufield raw 44 4;
     fh_file_size := ufield raw 48 8;
     fh_skip3 := field raw 56 8;
     fh_file_size2 := ufield raw 64 8 |}.

Definition decode_sess_hdr (raw : bytes) : sess_hdr :=
  {| sh_session_size := ufield raw 0 8;
     sh_skip1 := field raw 8 24;
     sh_nfrms := ufield raw 32 4;
     sh_byte_depth := ufield raw 36 4;
     sh_skip2 := ufield raw 40 4;
     sh_xsize := ufield raw 44 4;
     sh_bytes_per_row := ufield raw 48 4;
     sh_ysize := ufield raw 52 4;
     sh_bytes_per_img := ufield raw 56 4;
     sh_skip3 := field raw 60 8;
     sh_header_size := ufield raw 68 4;
     sh_session_data_size := ufield raw 72 8 |}.

(** [np.zeros(1, dtype=...)]: one record of zero bytes. *)
Definition zeros_bytes (n : nat) : bytes := repeat x00 n.

(** [np.fromstring(raw, dtype)] in binary mode: the bytes are cut into
    records of [itemsize] bytes; a length that is not a multiple of the
    record size is refused. *)
Fixpoint records {R} (decode : bytes -> R) (itemsize : nat) (count : nat)
    (raw : bytes) : list R :=
  match count with
  | O => []
  | S count' =>
      decode (take itemsize raw) :: records decode itemsize count' (drop itemsize raw)
  end.

Definition fromstring {R} (decode : bytes -> R) (itemsize : Z) (raw : bytes)
    : result (list R) :=
  let n := Z.of_nat (length raw) in
  if n mod itemsize =? 0
  then Ok (records decode (Z.to_nat itemsize) (Z.to_nat (n / itemsize)) raw)
  else Raise (ValueError "string size must be a multiple of element size").

(** Comparison of an ['S8'] element with a [bytes] literal: trailing NUL
    bytes of either side are not significant. *)
Fixpoint rstrip_nul (bs : bytes) : bytes :=
  match bs with
  | [] => []
  | b :: bs' =>
      match rstrip_nul bs' with
      | [] => if bool_decide (b = x00) then [] else [b]
      | r => b :: r
      end
  end.

Definition S_eq (elem lit : bytes) : bool :=
  bytes_eqb (rstrip_nul elem) (rstrip_nul lit).

(** Truth value of a NumPy array of booleans: an empty array is false, an
    array of one element is that element, a longer one has no truth value. *)
Definition array_truth (bs : list bool) : result bool :=
  match bs with
  | [] => Ok false
  | [b] => Ok b
  | _ => Raise (ValueError "The truth value of an array with more than one element is ambiguous")
  end.

(** Pixel element types. *)
Inductive np_dtype : Type := uint8 | uint16.

Definition itemsize (d : np_dtype) : Z :=
  match d with uint8 => 1 | uint16 => 2 end.

(** ** The instance *)

(** The instance attributes of a [DCIMGFile], as set by [__init__]. *)
Record DCIMGFile : Type := {
  mm : option mmap;
  file_header : option (list file_hdr);
  sess_header : option (list sess_hdr);
  file_size : option Z;
  dtype : option np_dtype;
  file_name : option string;
}.

Definition __init__ (name : option string) : DCIMGFile :=
  {| mm := None; file_header := None; sess_header := None;
     file_size := None; dtype := None; file_name := name |}.

Definition set_mm (v : option mmap) (s : DCIMGFile) : DCIMGFile :=
  {| mm := v; file_header := file_header s; sess_header := sess_header s;
     file_size := file_size s; dtype := dtype s; file_name := file_name s |}.

Definition set_file_header (v : list file_hdr) (s : DCIMGFile) : DCIMGFile :=
  {| mm := mm s; file_header := Some v; sess_header := sess_header s;
     file_size := file_size s; dtype := dtype s; file_name := file_name s |}.

Definition set_sess_header (v : list sess_hdr) (s : DCIMGFile) : DCIMGFile :=
  {| mm := mm s; file_header := file_header s; sess_header := Some v;
     file_size := file_size s; dtype := dtype s; file_name := file_name s |}.

Definition set_dtype (v : np_dtype) (s : DCIMGFile) : DCIMGFile :=
  {| mm := mm s; file_header := file_header s; sess_header := sess_header s;
     file_size := file_size s; dtype := Some v; file_name := file_name s |}.

(** Methods run in a state and error monad over the instance: an exception
    leaves the attributes as they were when it was raised. *)
Definition M (A : Type) : Type := DCIMGFile -> result A * DCIMGFile.

Definition ret {A} (a : A) : M A := fun s => (Ok a, s).

Definition raise {A} (e : exn) : M A := fun s => (Raise e, s).

Definition bind {A B} (m : M A) (k : A -> M B) : M B :=
  fun s =>
    match m s with
    | (Ok a, s') => k a s'
    | (Raise e, s') => (Raise e, s')
    | (Beyond, s') => (Beyond, s')
    end.

Definition update (f : DCIMGFile -> DCIMGFile) : M unit :=
  fun s => (Ok tt, f s).

(** A read-only computation on [self], such as a property. *)
Definition read {A} (p : DCIMGFile -> result A) : M A :=
  fun s => (p s, s).

Declare Scope py_scope.
Delimit Scope py_scope with py.
Notation "x <- m ;; k" := (bind m (fun x => k))
  (at level 20, m at level 99, k at level 200, only parsing) : py_scope.
Notation "m ;;; k" := (bind m (fun _ => k))
  (at level 100, k at level 200, only parsing, right associativity) : py_scope.

(** The same sequencing for read-only computations. *)
Definition rbind {A B} (r : result A) (k : A -> result B) : result B :=
  match r with Ok a => k a | Raise e => Raise e | Beyond => Beyond end.
Notation "'let?' x := r 'in' k" := (rbind r (fun x => k))
  (at level 10, x name, k at level 200, only parsing).

Local Open Scope py_scope.

(** ** Reading the mapping *)

(** [self.mm[lo:hi]]. *)
Definition mm_slice (lo hi : Z) (s : DCIMGFile) : result bytes :=
  match mm s with
  | None => Raise (TypeError "'NoneType' object is not subscriptable")
  | Some Closed => Raise (ValueError "mmap closed or invalid")
  | Some (Mapped data) => Ok (py_slice data lo hi)
  end.

(** [arr[name][0]] for a header attribute [arr]. *)
Definition first_elem {R} (arr : option (list R)) (get : R -> Z) : result Z :=
  match arr with
  | None => Raise (TypeError "'NoneType' object is not subscriptable")
  | Some [] => Raise (IndexError "index 0 is out of bounds for axis 0 with size 0")
  | Some (r :: _) => Ok (get r)
  end.

(** ** Properties *)

Definition nfrms (s : DCIMGFile) : result Z :=
  first_elem (sess_header s) sh_nfrms.

Definition byte_depth (s : DCIMGFile) : result Z :=
  first_elem (sess_header s) sh_byte_depth.

Definition xsize (s : DCIMGFile) : result Z :=
  first_elem (sess_header s) sh_xsize.

Definition ysize (s : DCIMGFile) : result Z :=
  first_elem (sess_header s) sh_ysize.

Definition bytes_per_row (s : DCIMGFile) : result Z :=
  first_elem (sess_header s) sh_bytes_per_row.

Definition bytes_per_img (s : DCIMGFile) : result Z :=
  first_elem (sess_header s) sh_bytes_per_img.

Definition shape (s : DCIMGFile) : result (Z * Z * Z) :=
  let? n := nfrms s in
  let? x := xsize s in
  let? y := ysize s in
  Ok (n, x, y).

Definition header_size (s : DCIMGFile) : result Z :=
  first_elem (file_header s) fh_header_size.

(** The sum of a 32-bit and a 64-bit unsigned scalar is a 64-bit one. *)
Definition session_footer_offset (s : DCIMGFile) : result Z :=
  let? h := header_size s in
  let? d := first_elem (sess_header s) sh_session_data_size in
  Ok (wrap64 (h + d)).

Definition timestamp_offset (s : DCIMGFile) : result Z :=
  let? f := session_footer_offset s in
  let? n := nfrms s in
  Ok (i64 (f + 272 + i64 (4 * n))).

(** ** [close], [_parse_header] and [open] *)

Definition close : M unit :=
  update (set_mm None).

(** [str.format] applied to a template and keyword arguments: the
    replacement fields are looked up from left to right in the keyword
    arguments; a missing one is a [KeyError]. *)
Inductive segment : Type :=
| Lit (text : string)
| Field (name : string).

Fixpoint kw_lookup (kw : list (string * string)) (name : string) : option string :=
  match kw with
  | [] => None
  | (k, v) :: kw' => if String.eqb k name then Some v else kw_lookup kw' name
  end.

Fixpoint str_format (tmpl : list segment) (kw : list (string * string))
    : result string :=
  match tmpl with
  | [] => Ok EmptyString
  | Lit text :: tmpl' =>
      let? rest := str_format tmpl' kw in Ok (text ++ rest)%string
  | Field name :: tmpl' =>
      match kw_lookup kw name with
      | None => Raise (KeyError name)
      | Some v => let? rest := str_format tmpl' kw in Ok (v ++ rest)%string
      end
  end.

(** [vars(self)]: the instance attributes, which are those that [__init__]
    sets; properties belong to the class and are not among them.  The text of
    an attribute that holds an object is abridged to its type. *)
Definition str_opt {A} (show : A -> string) (o : option A) : string :=
  match o with None => "None" | Some a => show a end.

Definition vars (s : DCIMGFile) : list (string * string) :=
  [ ("mm", str_opt (fun _ => "<mmap.mmap object>") (mm s));
    ("file_header", str_opt (fun _ => "<numpy.ndarray>") (file_header s));
    ("sess_header", str_opt (fun _ => "<numpy.ndarray>") (sess_header s));
    ("file_size", str_opt str_of_Z (file_size s));
    ("dtype", str_opt (fun d => match d with
                                | uint8 => "<class 'numpy.uint8'>"
                                | uint16 => "<class 'numpy.uint16'>"
                                end) (dtype s));
    ("file_name", str_opt (fun n => n) (file_name s)) ]%string.

Definition row_mismatch_template : list segment :=
  [ Lit "bytes_per_row ("; Field "bytes_per_row"; Lit ") ";
    Lit "!= byte_depth ("; Field "byte_depth"; Lit ") * nrows (";
    Field "y_size"; Lit ")" ]%string.

Definition img_mismatch_template : list segment :=
  [ Lit "bytes per img ("; Field "bytes_per_img"; Lit ") != nrows (";
    Field "y_size"; Lit ") * "; Lit "bytes_per_row (";
    Field "bytes_per_row"; Lit ")" ]%string.

Definition lift {A} (r : result A) : M A := fun s => (r, s).

(** The comparison [self.file_header['file_format'] == b'DCIMG'], element by
    element, and its negated truth value. *)
Definition file_format_matches (fh : list file_hdr) : list bool :=
  map (fun r => S_eq (fh_file_format r) (b_ "DCIMG")) fh.

Definition set_pixel_dtype : M unit :=
  bd <- read byte_depth ;;
  if bd =? 1 then update (set_dtype uint8)
  else
    bd <- read byte_depth ;;
    if bd =? 2 then update (set_dtype uint16)
    else
      bd <- read byte_depth ;;
      raise (RuntimeError ("Invalid byte-depth: " ++ str_of_Z bd)%string).

Definition check_sizes : M unit :=
  bpr <- read bytes_per_row ;;
  bd <- read byte_depth ;;
  ys <- read ysize ;;
  (if negb (bpr =? wrap32 (bd * ys))
   then
     e_str <- read (fun s => str_format row_mismatch_template (vars s)) ;;
     raise (RuntimeError e_str)
   else ret tt) ;;;
  bpi <- read bytes_per_img ;;
  bpr <- read bytes_per_row ;;
  ys <- read ysize ;;
  (if negb (bpi =? wrap32 (bpr * ys))
   then
     e_str <- read (fun s => str_format img_mismatch_template (vars s)) ;;
     raise (RuntimeError e_str)
   else ret tt).

Definition read_file_header : M unit :=
  update (set_file_header [decode_file_hdr (zeros_bytes 72)]) ;;;
  raw <- read (mm_slice 0 FILE_HDR_nbytes) ;;
  fh <- lift (fromstring decode_file_hdr FILE_HDR_nbytes raw) ;;
  update (set_file_header fh) ;;;
  same <- read (fun s =>
    let? fh := match file_header s with
               | Some fh => Ok fh
               | None => Raise (TypeError "'NoneType' object is not subscriptable")
               end in
    array_truth (file_format_matches fh)) ;;
  if negb same then raise (RuntimeError "Invalid DCIMG file") else ret tt.

Definition read_sess_header : M unit :=
  update (set_sess_header [decode_sess_hdr (zeros_bytes 80)]) ;;;
  index_from <- read header_size ;;
  let index_to := index_from + SESS_HDR_nbytes in
  raw <- read (mm_slice index_from index_to) ;;
  sh <- lift (fromstring decode_sess_hdr SESS_HDR_nbytes raw) ;;
  update (set_sess_header sh).

Definition _parse_header : M unit :=
  read_file_header ;;;
  read_sess_header ;;;
  set_pixel_dtype ;;;
  check_sizes.

(** The body of the [with] block of [open], on a file with the bytes
    [content]: [mmap.mmap(f.fileno(), 0, access=mmap.ACCESS_COPY)] refuses a
    file of length zero with a [ValueError], and maps any other file whole;
    a mapping whose first five bytes are not the magic is closed. *)
Definition map_file (content : bytes) : M mmap :=
  match content with
  | [] => raise (ValueError "cannot mmap an empty file")
  | _ :: _ =>
      ret (if negb (bytes_eqb (py_slice content 0 5) (b_ "DCIMG"))
           then Closed else Mapped content)
  end.

(** [open]: the file's bytes [content] are what the named file holds.  The
    mapping, closed or not, is stored and parsed; when the file cannot be
    mapped nothing is stored after [close]. *)
Definition open_ (content : bytes) : M unit :=
  close ;;;
  m <- map_file content ;;
  update (set_mm (Some m)) ;;;
  _parse_header.

(** ** [timestamps] *)

(** Conversion of a Python integer to a float, exact below [2^53]. *)
Definition float_of_int (z : Z) : float :=
  PrimFloat.of_uint63 (Uint63.of_Z z).

(** [floor(log10(n))] for a positive integer [n]: one less than the number
    of its decimal digits.  The library's [log10] is taken to be exact on
    the powers of ten and monotone, which makes its floor this integer. *)
Fixpoint floor_log10_aux (fuel : nat) (n : Z) : Z :=
  match fuel with
  | O => 0
  | S fuel' => if n <? 10 then 0 else 1 + floor_log10_aux fuel' (n / 10)
  end.

Definition floor_log10 (n : Z) : Z :=
  floor_log10_aux (Z.to_nat (Z.log2 n)) n.

(** [pow(10, -k)] for a positive integer [k]: the library's [pow] is taken
    to be correctly rounded, so that the result is the float nearest to
    [1 / 10^k], which is what the division of [1] by the float [10^k]
    gives. *)
Definition pow10_neg (k : Z) : float :=
  PrimFloat.div (float_of_int 1) (float_of_int (10 ^ k)).

(** The value stored for one record of the table. *)
Definition timestamp_value (whole fraction : Z) : float :=
  if negb (fraction =? 0)
  then PrimFloat.add (float_of_int whole)
         (PrimFloat.mul (float_of_int fraction)
            (pow10_neg (floor_log10 fraction + 1)))
  else float_of_int whole.

(** One iteration of the loop, on the array [ts] and the cursor [index]. *)
Definition timestamps_step (s : DCIMGFile) (acc : result (list float * Z))
    (i : nat) : result (list float * Z) :=
  let? st := acc in
  let ts := fst st in
  let index := snd st in
  let? wb := mm_slice index (index + 4) s in
  let whole := from_bytes_little wb in
  let index := index + 4 in
  let? fb := mm_slice index (index + 4) s in
  let fraction := from_bytes_little fb in
  let index := index + 4 in
  Ok (<[i := timestamp_value whole fraction]> ts, index).

Definition timestamps (s : DCIMGFile) : result (list float) :=
  let? n := nfrms s in
  let ts := repeat (float_of_int 0) (Z.to_nat n) in
  let? index := timestamp_offset s in
  let? st := fold_left (timestamps_step s) (seq 0 (Z.to_nat n)) (Ok (ts, index)) in
  Ok (fst st).

(** ** Array views *)

(** An array is a C-contiguous view of the mapping, which shares its bytes,
    or owns its elements (the result of a conversion). *)
Inductive ndarray : Type :=
| View (shp : list Z) (dt : np_dtype) (offset : Z)
| Owned (shp : list Z) (dt : np_dtype) (elems : list Z).

Definition arr_shape (a : ndarray) : list Z :=
  match a with View shp _ _ => shp | Owned shp _ _ => shp end.

Definition arr_dtype (a : ndarray) : np_dtype :=
  match a with View _ dt _ => dt | Owned _ dt _ => dt end.

Definition prod_list (l : list Z) : Z := fold_right Z.mul 1 l.

(** [count] bytes of the mapping from position [pos]. *)
Definition peek (data : bytes) (pos : Z) (count : Z) : bytes :=
  take (Z.to_nat count) (drop (Z.to_nat pos) data).

(** The bytes [bs] written into the mapping from position [pos]. *)
Fixpoint poke (data : bytes) (pos : nat) (bs : bytes) : bytes :=
  match bs with
  | [] => data
  | b :: bs' => poke (<[pos := b]> data) (S pos) bs'
  end.

(** The element of type [dt] stored at position [pos]. *)
Definition elem_at (data : bytes) (dt : np_dtype) (pos : Z) : Z :=
  from_bytes_little (peek data pos (itemsize dt)).

(** [np.ndarray(shp, self.dtype, self.mm, offset)].  The buffer is refused
    when it is shorter than the offset plus the size of the array; negative
    dimensions are refused afterwards. *)
Definition ndarray_new (shp : list Z) (offset : Z) (s : DCIMGFile)
    : result ndarray :=
  match dtype s, mm s with
  | _, Some Closed => Raise (ValueError "mmap closed or invalid")
  | None, _ => Beyond
  | _, None => Beyond
  | Some dt, Some (Mapped data) =>
      if Z.of_nat (length data) <? offset + itemsize dt * prod_list shp
      then Raise (TypeError "buffer is too small for requested array")
      else if existsb (fun d => d <? 0) shp
      then Raise (ValueError "negative dimensions are not allowed")
      else if offset <? 0 then Beyond
      else Ok (View shp dt offset)
  end.

(** The position in the mapping of element [(i, y, x)] of a view of three
    dimensions. *)
Definition elem_pos (shp : list Z) (dt : np_dtype) (offset : Z) (i y x : Z) : Z :=
  match shp with
  | [_; d1; d2] => offset + itemsize dt * ((i * d1 + y) * d2 + x)
  | _ => offset
  end.

(** [a[i, 0, 0:4] = px] for a view [a] of three dimensions and a view [px]
    of shape [(1, 1, 4)] of the same element type: the four elements are
    read, then written. *)
Definition setitem_corner (a : ndarray) (i : Z) (px : ndarray) : M unit :=
  fun s =>
    match a, px, mm s with
    | View [d0; d1; d2] dt off, View [1; 1; 4] _ src, Some (Mapped data) =>
        if negb ((0 <=? i) && (i <? d0))
        then (Raise (IndexError "index is out of bounds for axis 0"), s)
        else if negb (0 <? d1)
        then (Raise (IndexError "index 0 is out of bounds for axis 1 with size 0"), s)
        else if negb (Z.min 4 d2 =? 4)
        then (Raise (ValueError "could not broadcast input array from shape (1,1,4)"), s)
        else
          let block := peek data src (4 * itemsize dt) in
          let dst := elem_pos [d0; d1; d2] dt off i 0 0 in
          (Ok tt, set_mm (Some (Mapped (poke data (Z.to_nat dst) block))) s)
    | _, _, _ => (Beyond, s)
    end.

(** The loop of [layer] over the frames [i], [i + 1], ... of the layer. *)
Fixpoint layer_loop (a : ndarray) (count : nat) (i index : Z) : M unit :=
  match count with
  | O => ret tt
  | S count' =>
      px <- read (ndarray_new [1; 1; 4] index) ;;
      setitem_corner a i px ;;;
      bd <- read byte_depth ;;
      layer_loop a count' (i + 1) (i64 (index + i64 (4 * bd)))
  end.

(** The element of index [k], in C order, of an array. *)
Definition flat_get (s : DCIMGFile) (a : ndarray) (k : Z) : option Z :=
  match a with
  | View _ dt off =>
      match mm s with
      | Some (Mapped data) =>
          let pos := off + itemsize dt * k in
          if (0 <=? pos) && (pos + itemsize dt <=? Z.of_nat (length data))
          then Some (elem_at data dt pos) else None
      | _ => None
      end
  | Owned _ _ elems => elems !! Z.to_nat k
  end.

(** The index in C order of a tuple of indices, when each is within its
    dimension. *)
Fixpoint flat_index (shp idx : list Z) (acc : Z) : option Z :=
  match shp, idx with
  | [], [] => Some acc
  | d :: shp', j :: idx' =>
      if (0 <=? j) && (j <? d) then flat_index shp' idx' (acc * d + j) else None
  | _, _ => None
  end.

Definition arr_get (s : DCIMGFile) (a : ndarray) (idx : list Z) : option Z :=
  match flat_index (arr_shape a) idx 0 with
  | Some k => flat_get s a k
  | None => None
  end.

(** [a.astype(dtype)]: a new array that owns the converted elements; the
    conversion between unsigned types keeps the low bits. *)
Definition astype (s : DCIMGFile) (a : ndarray) (target : np_dtype) : ndarray :=
  let n := Z.to_nat (prod_list (arr_shape a)) in
  let conv := fun z => z mod 2 ^ (8 * itemsize target) in
  Owned (arr_shape a) target
    (map (fun k => conv (default 0 (flat_get s a (Z.of_nat k)))) (seq 0 n)).

Definition layer (index frames_per_layer : Z) (dtype : option np_dtype)
    : M ndarray :=
  bpi <- read bytes_per_img ;;
  let offset := i64 (232 + i64 (i64 (bpi * frames_per_layer) * index)) in
  ys <- read ysize ;;
  xs <- read xsize ;;
  a <- read (ndarray_new [frames_per_layer; ys; xs] offset) ;;
  sfo <- read session_footer_offset ;;
  n <- read nfrms ;;
  bd <- read byte_depth ;;
  let index := i64 (i64 (sfo + 272 + i64 (n * (4 + 8)))
                    + i64 (i64 (i64 (4 * bd) * index) * frames_per_layer)) in
  layer_loop a (Z.to_nat frames_per_layer) 0 index ;;;
  match dtype with
  | None => ret a
  | Some target => read (fun s => Ok (astype s a target))
  end.

(** [np.squeeze(a, axis)]: without an axis every dimension of size one is
    removed.  The axis has to be an integer; [frame] passes its [dtype]
    argument in this place, and an element type is not an integer. *)
Definition squeeze (a : ndarray) (axis : option np_dtype) : result ndarray :=
  match axis with
  | None =>
      let shp := filter (fun d => d ≠ 1) (arr_shape a) in
      Ok (match a with
          | View _ dt off => View shp dt off
          | Owned _ dt elems => Owned shp dt elems
          end)
  | Some _ => Raise (TypeError "an integer is required for the axis")
  end.

Definition frame (index : Z) (dtype : option np_dtype) : M ndarray :=
  a <- layer index 1 None ;;
  lift (squeeze a dtype).

(** ** Synthetic files *)

(** [z.to_bytes(w, 'little')]. *)
Definition byte_of_Z (z : Z) : byte :=
  default x00 (Byte.of_N (Z.to_N (z mod 256))).

Fixpoint to_bytes_little (w : nat) (z : Z) : bytes :=
  match w with
  | O => []
  | S w' => byte_of_Z z :: to_bytes_little w' (z / 256)
  end.

(** A file header with the padding [pad] after the magic. *)
Definition synth_file_header (magic pad : bytes) (n hsize fsize : Z) : bytes :=
  magic ++ pad ++ to_bytes_little 4 0 ++ zeros_bytes 20
    ++ to_bytes_little 4 1 ++ to_bytes_little 4 n ++ to_bytes_little 4 hsize
    ++ to_bytes_little 4 0 ++ to_bytes_little 8 fsize ++ zeros_bytes 8
    ++ to_bytes_little 8 fsize.

Definition synth_sess_header (n bd xs bpr ys bpi sds : Z) : bytes :=
  to_bytes_little 8 0 ++ zeros_bytes 24 ++ to_bytes_little 4 n
    ++ to_bytes_little 4 bd ++ to_bytes_little 4 0 ++ to_bytes_little 4 xs
    ++ to_bytes_little 4 bpr ++ to_bytes_little 4 ys ++ to_bytes_little 4 bpi
    ++ zeros_bytes 8 ++ to_bytes_little 4 0 ++ to_bytes_little 8 sds.

(** The elements [vals] of width [w], one after the other. *)
Definition pack (w : nat) (vals : list Z) : bytes :=
  concat (map (to_bytes_little w) vals).

(** A whole file: the two headers, the pixel block from byte 232, and the
    footer with its preamble, the counters, the timestamps (pairs of the
    whole and the fraction) and the corner pixels. *)
Definition synth_file (magic pad : bytes) (n bd xs bpr ys bpi : Z)
    (pixels : list Z) (stamps : list (Z * Z)) (corners : list Z) : bytes :=
  let w := Z.to_nat bd in
  let block := pack w pixels in
  let sds := 232 + Z.of_nat (length block) - 72 in
  synth_file_header magic pad n 72 0
    ++ synth_sess_header n bd xs bpr ys bpi sds
    ++ zeros_bytes 80
    ++ block
    ++ zeros_bytes 272
    ++ pack 4 (map Z.of_nat (seq 0 (Z.to_nat n)))
    ++ concat (map (fun p => to_bytes_little 4 (fst p) ++ to_bytes_little 4 (snd p)) stamps)
    ++ pack w corners.

(** Three frames of four by four 16-bit pixels.  Pixel [k] of frame [f] is
    [100 * f + k], except for the first four pixels of each frame, which
    hold the marker; the corner table holds [1000 + 10 * f + x]. *)
Definition sample_pixels : list Z :=
  flat_map (fun f =>
    [0; 65535; 0; 65535] ++ map (fun k => 100 * Z.of_nat f + Z.of_nat k) (seq 4 12))
    (seq 0 3).

Definition sample_corners : list Z :=
  flat_map (fun f => map (fun x => 1000 + 10 * Z.of_nat f + Z.of_nat x) (seq 0 4))
    (seq 0 3).

Definition sample_stamps : list (Z * Z) := [(10, 5); (10, 500); (7, 0)].

Definition sample_file : bytes :=
  synth_file (b_ "DCIMG") (zeros_bytes 3) 3 2 4 8 4 32
    sample_pixels sample_stamps sample_corners.

(** The instance after [DCIMGFile(name)] on a file with the bytes
    [content]. *)
Definition opened (content : bytes) : result unit * DCIMGFile :=
  open_ content (__init__ (Some "sample.dcimg"%string)).

Definition sample : DCIMGFile := snd (opened sample_file).

(** The parts of [open] that come before the pixel type is set: the mapping
    is stored and the file header is read and its magic checked; then the
    session header is read. *)
Definition open_file_header (content : bytes) : M unit :=
  close ;;;
  m <- map_file content ;;
  update (set_mm (Some m)) ;;;
  read_file_header.

Definition open_headers (content : bytes) : M unit :=
  open_file_header content ;;;
  read_sess_header.

(** The sample file with one byte of the magic altered, and with padding
    bytes after the magic that are not NUL. *)
Definition altered_magic_file : bytes :=
  synth_file (b_ "DCIMX") (zeros_bytes 3) 3 2 4 8 4 32
    sample_pixels sample_stamps sample_corners.

Definition padded_magic_file : bytes :=
  synth_file (b_ "DCIMG") (b_ "xyz") 3 2 4 8 4 32
    sample_pixels sample_stamps sample_corners.

(** The state in which [open] leaves the instance when the first five
    bytes are not the magic: the mapping is closed, the file header is the
    zero record and the session header is untouched. *)
Definition after_magic_mismatch (s : DCIMGFile) : DCIMGFile :=
  set_file_header [decode_file_hdr (zeros_bytes 72)]
    (set_mm (Some Closed) (set_mm None s)).

(** An outcome that is not a [RuntimeError] with the message [msg]. *)
Definition not_RuntimeError {A} (msg : string) (r : result A) : Prop :=
  r <> Raise (RuntimeError msg).

(** The sample file with a row size, an image size and a pixel depth that
    the header checks refuse. *)
Definition row_mismatch_file : bytes :=
  synth_file (b_ "DCIMG") (zeros_bytes 3) 3 2 4 9 4 32
    sample_pixels sample_stamps sample_corners.

Definition img_mismatch_file : bytes :=
  synth_file (b_ "DCIMG") (zeros_bytes 3) 3 2 4 8 4 33
    sample_pixels sample_stamps sample_corners.

Definition depth3_file : bytes :=
  synth_file (b_ "DCIMG") (zeros_bytes 3) 3 3 4 12 4 48
    sample_pixels sample_stamps sample_corners.

(** A fresh instance, as [DCIMGFile()] makes it. *)
Definition fresh : DCIMGFile := __init__ None.

(** The value that one iteration of the loop of [timestamps] stores when
    its cursor is at [index]: the four bytes at the cursor are the whole
    part, the next four the fraction. *)
Definition timestamp_at (data : bytes) (index : Z) : float :=
  timestamp_value
    (from_bytes_little (py_slice data index (index + 4)))
    (from_bytes_little (py_slice data (index + 4) (index + 4 + 4))).

(** An open handle: the mapping is open on [data], the two headers each
    hold one record, whose fields are unsigned, and the pixel type is the
    one of the byte depth. *)
Definition open_handle (s : DCIMGFile) (data : bytes)
    (fh : file_hdr) (sh : sess_hdr) (dt : np_dtype) : Prop :=
  mm s = Some (Mapped data)
  /\ file_header s = Some [fh]
  /\ sess_header s = Some [sh]
  /\ dtype s = Some dt
  /\ sh_byte_depth sh = itemsize dt
  /\ 0 <= fh_header_size fh < 2 ^ 32
  /\ 0 <= sh_nfrms sh < 2 ^ 32
  /\ 0 <= sh_xsize sh < 2 ^ 32
  /\ 0 <= sh_ysize sh < 2 ^ 32
  /\ 0 <= sh_bytes_per_img sh < 2 ^ 32
  /\ 0 <= sh_session_data_size sh < 2 ^ 64.

(** The headers of an open handle pass the two checks of the sizes. *)
Definition valid_sizes (sh : sess_hdr) : Prop :=
  sh_bytes_per_row sh = wrap32 (sh_byte_depth sh * sh_ysize sh)
  /\ sh_bytes_per_img sh = wrap32 (sh_bytes_per_row sh * sh_ysize sh).

(** The offset of the footer, as [session_footer_offset] computes it. *)
Definition footer_offset (fh : file_hdr) (sh : sess_hdr) : Z :=
  wrap64 (fh_header_size fh + sh_session_data_size sh).

(** The sample file cut in the middle of the second record of the table of
    the timestamps, and the instance opened on it. *)
Definition truncated_file : bytes := take 622 sample_file.

Definition truncated : DCIMGFile := snd (opened truncated_file).

(** The headers of the sample file. *)
Definition sample_fh : file_hdr := decode_file_hdr (py_slice sample_file 0 72).

Definition sample_sh : sess_hdr := decode_sess_hdr (py_slice sample_file 72 152).

(** A file of one frame of two rows of eight 8-bit pixels, and a file of
    one frame of one row of four 8-bit pixels, with the instances opened on
    them. *)
Definition wide_file : bytes :=
  synth_file (b_ "DCIMG") (zeros_bytes 3) 1 1 8 2 2 4
    ([0; 255; 0; 255] ++ map Z.of_nat (seq 4 12)) [(1, 0)] [7; 8; 9; 10].

Definition wide : DCIMGFile := snd (opened wide_file).

Definition row_file : bytes :=
  synth_file (b_ "DCIMG") (zeros_bytes 3) 1 1 4 1 1 1
    [0; 255; 0; 255] [(1, 0)] [7; 8; 9; 10].

Definition row : DCIMGFile := snd (opened row_file).

(** A file of one frame of two rows of two 8-bit pixels. *)
Definition narrow_file : bytes :=
  synth_file (b_ "DCIMG") (zeros_bytes 3) 1 1 2 2 2 4
    [0; 255; 0; 255] [(1, 0)] [7; 8; 9; 10].

Definition narrow : DCIMGFile := snd (opened narrow_file).

(** The headers of the file of two rows. *)
Definition wide_fh : file_hdr := decode_file_hdr (py_slice wide_file 0 72).

Definition wide_sh : sess_hdr := decode_sess_hdr (py_slice wide_file 72 152).

(** ** Files that [open] accepts *)

(** What [open] checks of the bytes of a file, in the order of the checks:
    the file header is whole and its magic field is the literal followed by
    NUL bytes, the session header lies within the file at the offset that
    the file header gives, the byte depth is 1 or 2 and the two sizes pass
    their checks. *)
Definition open_accepts (content : bytes) : Prop :=
  (72 <= length content)%nat
  /\ take 8 content = b_ "DCIMG" ++ zeros_bytes 3
  /\ let fh := decode_file_hdr (take 72 content) in
     fh_header_size fh + 80 <= Z.of_nat (length content)
     /\ let sh := decode_sess_hdr (peek content (fh_header_size fh) 80) in
        (sh_byte_depth sh = 1 \/ sh_byte_depth sh = 2)
        /\ valid_sizes sh.

(** The instance that a successful [open] leaves. *)
Definition opened_state (content : bytes) (s0 : DCIMGFile) : DCIMGFile :=
  let fh := decode_file_hdr (take 72 content) in
  let sh := decode_sess_hdr (peek content (fh_header_size fh) 80) in
  {| mm := Some (Mapped content);
     file_header := Some [fh];
     sess_header := Some [sh];
     file_size := file_size s0;
     dtype := Some (if sh_byte_depth sh =? 1 then uint8 else uint16);
     file_name := file_name s0 |}.

(** The first 50 bytes of the sample file; a file header that puts the
    session header past the end of the file, and one that puts it across
    the end. *)
Definition short_file : bytes := take 50 sample_file.

Definition far_header_file : bytes :=
  synth_file_header (b_ "DCIMG") (zeros_bytes 3) 3 1000 0 ++ zeros_bytes 100.

Definition cut_header_file : bytes :=
  synth_file_header (b_ "DCIMG") (zeros_bytes 3) 3 100 0 ++ zeros_bytes 100.


(** ** What a method leaves untouched *)

(** Everything of an instance but its mapping. *)
Definition headers (s : DCIMGFile)
    : option (list file_hdr) * option (list sess_hdr) * option np_dtype
      * option Z * option string :=
  (file_header s, sess_header s, dtype s, file_size s, file_name s).

(** A computation that leaves [f] of the instance as it was, whatever its
    outcome. *)
Definition keeps {X A} (f : DCIMGFile -> X) (m : M A) : Prop :=
  forall s, f (snd (m s)) = f s.

(** The error of a subscript applied to [None]. *)
Definition none_subscript : exn :=
  TypeError "'NoneType' object is not subscriptable".

(** The positions of the mapping that belong to the corner block (the first
    four elements, of [bd] bytes each) of none of the [d0] frames, of [F]
    bytes each, of a view at offset [off]. *)
Definition off_corners (bd F off d0 : Z) (j : nat) : Prop :=
  forall i, 0 <= i < d0 -> ~ (off + F * i <= Z.of_nat j < off + F * i + 4 * bd).


(** The element [(i, y, x)] of the view that [layer] returns for a view at
    [offset] of frames of [ys] rows and [xs] columns, with the corner table
    of the layer at [corner], in terms of the mapping [data] before the
    call: an element of the corner table for the first four elements of row
    0, the element of the pixel block otherwise. *)
Definition restored_elem (data : bytes) (dt : np_dtype)
    (ys xs offset corner : Z) (i y x : Z) : Z :=
  if (y =? 0) && (x <? 4)
  then elem_at data dt (corner + 4 * itemsize dt * i + itemsize dt * x)
  else elem_at data dt (offset + itemsize dt * ((i * ys + y) * xs + x)).

(** ** Tactics *)

(** Case analysis on the innermost scrutinee of the goal. *)
Ltac destruct_innermost :=
  match goal with
  | |- context [match ?x with _ => _ end] =>
      lazymatch x with
      | context [match _ with _ => _ end] => fail
      | _ => destruct x eqn:?
      end
  end.

(** Closed facts on the sample files are settled by evaluation. *)
Ltac by_eval_atom :=
  lazymatch goal with
  | |- _ = _ => reflexivity
  | |- _ => let H := fresh in intros H; discriminate H
  end.

Ltac by_eval :=
  vm_compute;
  lazymatch goal with
  | |- _ /\ _ => split; by_eval_atom
  | |- _ => by_eval_atom
  end.

(** * Properties *)

(** ** The monad *)

Lemma bind_Ok_inv {A B} (m : M A) (k : A -> M B) s b s' :
  bind m k s = (Ok b, s') ->
  exists a s1, m s = (Ok a, s1) /\ k a s1 = (Ok b, s').
Proof.
  unfold bind. destruct (m s) as [[a | e |] s1]; intros H; try discriminate.
  exists a, s1. split; [reflexivity | exact H].
Qed.

Lemma bind_Ok {A B} (m : M A) (k : A -> M B) s a s1 :
  m s = (Ok a, s1) -> bind m k s = k a s1.
Proof. unfold bind. intros ->. reflexivity. Qed.

Lemma bind_Raise {A B} (m : M A) (k : A -> M B) s e s1 :
  m s = (Raise e, s1) -> bind m k s = (Raise e, s1).
Proof. unfold bind. intros ->. reflexivity. Qed.

Lemma bind_assoc {A B C} (m : M A) (k : A -> M B) (h : B -> M C) s :
  bind (bind m k) h s = bind m (fun a => bind (k a) h) s.
Proof.
  unfold bind. destruct (m s) as [[a | e |] s1]; reflexivity.
Qed.

Lemma rbind_Ok_inv {A B} (r : result A) (k : A -> result B) b :
  rbind r k = Ok b -> exists a, r = Ok a /\ k a = Ok b.
Proof.
  destruct r as [a | e |]; simpl; intros H; try discriminate.
  exists a. split; [reflexivity | exact H].
Qed.

(** [open] is the reading of the headers followed by the setting of the
    pixel type and the check of the sizes. *)
Lemma open_split content s :
  open_ content s
  = bind (open_headers content) (fun _ => bind set_pixel_dtype (fun _ => check_sizes)) s.
Proof.
  unfold open_, open_headers, open_file_header, _parse_header, bind, close, update.
  destruct (map_file content _) as [[m | e |] s0]; try reflexivity;
    destruct (read_file_header _) as [[[] | e' |] s1]; reflexivity.
Qed.

(** On a file that is not empty the mapping is made, and kept open when the
    first five bytes are the magic. *)
Lemma open_file_header_nonempty (content : bytes) :
  content <> [] ->
  open_file_header content
  = (close ;;;
     let m := if negb (bytes_eqb (py_slice content 0 5) (b_ "DCIMG"))
              then Closed else Mapped content in
     update (set_mm (Some m)) ;;;
     read_file_header).
Proof.
  intros Hc. destruct content as [| b c]; [contradiction | reflexivity].
Qed.

(** An empty file cannot be mapped: [open] fails before anything is stored
    or parsed. *)
Lemma open_empty (s : DCIMGFile) :
  open_ [] s = (Raise (ValueError "cannot mmap an empty file"), set_mm None s).
Proof. reflexivity. Qed.

Lemma magic_nonempty (content : bytes) :
  py_slice content 0 5 = b_ "DCIMG" -> content <> [].
Proof. intros H ->. discriminate H. Qed.

(** ** Bytes *)

Lemma byte_to_Z_bound (b : byte) : 0 <= Z.of_N (Byte.to_N b) < 256.
Proof. pose proof (Byte.to_N_bounded b). lia. Qed.

Lemma from_bytes_little_bound (bs : bytes) :
  0 <= from_bytes_little bs < 256 ^ Z.of_nat (length bs).
Proof.
  induction bs as [| b bs IH].
  - simpl. lia.
  - cbn [from_bytes_little length].
    rewrite Nat2Z.inj_succ, Z.pow_succ_r by lia.
    pose proof (byte_to_Z_bound b). lia.
Qed.

Lemma ufield_bound raw off w :
  0 <= ufield raw off w < 256 ^ Z.of_nat w.
Proof.
  unfold ufield, field.
  pose proof (from_bytes_little_bound (take w (drop off raw))) as H.
  assert (length (take w (drop off raw)) <= w)%nat as Hl
    by (rewrite length_take; lia).
  assert (256 ^ Z.of_nat (length (take w (drop off raw))) <= 256 ^ Z.of_nat w)
    by (apply Z.pow_le_mono_r; lia).
  lia.
Qed.

Lemma py_slice_length {A} (l : list A) lo hi :
  0 <= lo -> lo <= hi ->
  length (py_slice l lo hi)
  = Z.to_nat (Z.min hi (Z.of_nat (length l)) - Z.min lo (Z.of_nat (length l))).
Proof.
  intros Hlo Hhi. unfold py_slice, slice_bound.
  destruct (Z.ltb_spec lo 0); [lia |].
  destruct (Z.ltb_spec hi 0); [lia |].
  rewrite length_take, length_drop. lia.
Qed.

Lemma py_slice_in_range {A} (l : list A) lo hi :
  0 <= lo -> lo <= hi -> hi <= Z.of_nat (length l) ->
  py_slice l lo hi = take (Z.to_nat (hi - lo)) (drop (Z.to_nat lo) l).
Proof.
  intros Hlo Hhi Hlen. unfold py_slice, slice_bound.
  destruct (Z.ltb_spec lo 0); [lia |].
  destruct (Z.ltb_spec hi 0); [lia |].
  rewrite !Z.min_l by lia. reflexivity.
Qed.

Lemma i64_id z : - 2 ^ 63 <= z < 2 ^ 63 -> i64 z = z.
Proof.
  intros H. unfold i64. rewrite Z.mod_small by lia. lia.
Qed.

(** ** The magic *)

Lemma open_closed_mapping (content : bytes) (s : DCIMGFile) :
  content <> [] ->
  py_slice content 0 5 <> b_ "DCIMG" ->
  open_ content s
  = (Raise (ValueError "mmap closed or invalid"), after_magic_mismatch s).
Proof.
  intros Hc Hne. destruct content as [| b c]; [contradiction |].
  unfold open_, map_file, bytes_eqb. rewrite bool_decide_false by exact Hne.
  reflexivity.
Qed.

(** C3, on the code: when the file is not empty (an empty file cannot be
    mapped) and the first five bytes of the mapping differ from the magic,
    [open] closes the mapping, goes on to [_parse_header], and fails there
    on the read of the closed mapping with a [ValueError], not with the
    [RuntimeError] that reports an invalid file; the session header is not
    read. *)
Theorem open_magic_mismatch_raises_ValueError (content : bytes) (s : DCIMGFile) :
  content <> [] ->
  py_slice content 0 5 <> b_ "DCIMG" ->
  open_ content s
    = (Raise (ValueError "mmap closed or invalid"), after_magic_mismatch s)
  /\ sess_header (after_magic_mismatch s) = sess_header s.
Proof.
  intros Hc Hne.
  split; [exact (open_closed_mapping content s Hc Hne) | reflexivity].
Qed.

Lemma open_magic_mismatch_witness :
  fst (opened altered_magic_file) = Raise (ValueError "mmap closed or invalid").
Proof.
  unfold opened.
  rewrite (proj1 (open_magic_mismatch_raises_ValueError altered_magic_file
                    (__init__ (Some "sample.dcimg"%string))
                    ltac:(vm_compute; intros H; discriminate H)
                    ltac:(vm_compute; intros H; discriminate H))).
  reflexivity.
Defined.

(** The file header that [open] stores for a mapping of at least 72 bytes
    that starts with the magic. *)
Lemma open_file_header_eval (content : bytes) (s : DCIMGFile) :
  (72 <= length content)%nat ->
  take 5 content = b_ "DCIMG" ->
  open_file_header content s
  = let s1 := set_file_header [decode_file_hdr (take 72 content)]
                (set_file_header [decode_file_hdr (zeros_bytes 72)]
                   (set_mm (Some (Mapped content)) (set_mm None s))) in
    if S_eq (take 8 content) (b_ "DCIMG")
    then (Ok tt, s1)
    else (Raise (RuntimeError "Invalid DCIMG file"), s1).
Proof.
  intros Hlen Hmagic.
  assert (py_slice content 0 5 = take 5 content) as H5.
  { rewrite py_slice_in_range by lia. reflexivity. }
  assert (py_slice content 0 72 = take 72 content) as H72.
  { rewrite py_slice_in_range by lia. reflexivity. }
  rewrite open_file_header_nonempty by (intros ->; simpl in Hlen; lia).
  unfold bytes_eqb.
  rewrite H5, bool_decide_true by exact Hmagic.
  unfold read_file_header, close, update, bind, read, lift, mm_slice, FILE_HDR_nbytes.
  cbn [mm set_mm set_file_header negb fst snd].
  rewrite H72. unfold fromstring.
  rewrite length_take, Nat.min_l by lia.
  cbn [Z.of_nat Pos.of_succ_nat Z.modulo Z.div Z.eqb].
  change (Z.of_nat 72 mod 72 =? 0) with true.
  change (Z.to_nat (Z.of_nat 72 / 72)) with 1%nat.
  change (Z.to_nat 72) with 72%nat.
  cbn [records file_header set_file_header rbind file_format_matches map array_truth].
  rewrite take_take, Nat.min_id.
  assert (fh_file_format (decode_file_hdr (take 72 content)) = take 8 content) as ->.
  { cbn [decode_file_hdr fh_file_format]. unfold field. rewrite drop_0, take_take.
    f_equal. }
  destruct (S_eq (take 8 content) (b_ "DCIMG")); reflexivity.
Qed.

Lemma rstrip_nul_cons_ne (b : byte) (bs : bytes) :
  b <> x00 -> rstrip_nul (b :: bs) = b :: rstrip_nul bs.
Proof.
  intros Hb. cbn [rstrip_nul].
  destruct (rstrip_nul bs); [| reflexivity].
  rewrite bool_decide_false by exact Hb. reflexivity.
Qed.

Lemma rstrip_nul_zeros (n : nat) : rstrip_nul (zeros_bytes n) = [].
Proof.
  induction n as [| n IH]; [reflexivity |].
  change (zeros_bytes (S n)) with (x00 :: zeros_bytes n).
  cbn [rstrip_nul]. rewrite IH. reflexivity.
Qed.

Lemma rstrip_nul_nil_inv (bs : bytes) :
  rstrip_nul bs = [] -> bs = zeros_bytes (length bs).
Proof.
  induction bs as [| b bs IH]; [reflexivity |].
  cbn [rstrip_nul length]. destruct (rstrip_nul bs) eqn:E; [| discriminate].
  destruct (decide (b = x00)) as [-> | Hb].
  - intros _. rewrite (IH eq_refl) at 1. reflexivity.
  - rewrite bool_decide_false by exact Hb. discriminate.
Qed.

Lemma S_eq_magic (pad : bytes) :
  S_eq (b_ "DCIMG" ++ pad) (b_ "DCIMG") = bool_decide (pad = zeros_bytes (length pad)).
Proof.
  change (b_ "DCIMG") with [x44; x43; x49; x4d; x47].
  unfold S_eq, bytes_eqb. cbn [app].
  rewrite !rstrip_nul_cons_ne by discriminate.
  change (rstrip_nul []) with (@nil byte).
  destruct (rstrip_nul pad) as [| b r] eqn:E.
  - rewrite bool_decide_true by reflexivity.
    rewrite bool_decide_true by (apply rstrip_nul_nil_inv; exact E).
    reflexivity.
  - rewrite bool_decide_false by discriminate.
    rewrite bool_decide_false; [reflexivity |].
    intros Hpad. rewrite Hpad, rstrip_nul_zeros in E. discriminate.
Qed.

Lemma take_8_magic (content : bytes) :
  (8 <= length content)%nat ->
  take 5 content = b_ "DCIMG" ->
  take 8 content = b_ "DCIMG" ++ take 3 (drop 5 content).
Proof.
  intros Hlen Hmagic.
  rewrite <- (take_drop 5 content) at 1.
  rewrite take_app, length_take, Nat.min_l by lia.
  rewrite take_take, Nat.min_r by lia.
  rewrite Hmagic. reflexivity.
Qed.

(** The messages of the two size checks cannot be built: their fields
    name properties, which are not among the instance attributes. *)
Lemma row_mismatch_message (s : DCIMGFile) :
  str_format row_mismatch_template (vars s) = Raise (KeyError "bytes_per_row").
Proof. reflexivity. Qed.

Lemma img_mismatch_message (s : DCIMGFile) :
  str_format img_mismatch_template (vars s) = Raise (KeyError "bytes_per_img").
Proof. reflexivity. Qed.


Lemma check_sizes_no_RuntimeError (s : DCIMGFile) (msg : string) :
  not_RuntimeError msg (fst (check_sizes s)).
Proof.
  unfold not_RuntimeError, check_sizes, bind, read, raise, ret,
    bytes_per_row, bytes_per_img, byte_depth, ysize, first_elem.
  repeat (first [ rewrite row_mismatch_message
                | rewrite img_mismatch_message
                | destruct_innermost ];
          cbn [fst snd negb]);
    discriminate.
Qed.

Lemma read_sess_header_no_RuntimeError (s : DCIMGFile) (msg : string) :
  not_RuntimeError msg (fst (read_sess_header s)).
Proof.
  unfold not_RuntimeError, read_sess_header, bind, read, update, lift,
    header_size, first_elem, mm_slice, fromstring.
  cbn [file_header set_sess_header mm fst snd].
  repeat (destruct_innermost; cbn [fst snd]); discriminate.
Qed.

Lemma set_pixel_dtype_no_magic_error (s : DCIMGFile) :
  not_RuntimeError "Invalid DCIMG file" (fst (set_pixel_dtype s)).
Proof.
  unfold not_RuntimeError, set_pixel_dtype, bind, read, update, raise,
    byte_depth, first_elem.
  repeat (destruct_innermost; cbn [fst snd]); discriminate.
Qed.

(** What comes after the file header in [open] never reports an invalid
    magic. *)
Lemma after_file_header_no_magic_error (s : DCIMGFile) :
  not_RuntimeError "Invalid DCIMG file"
    (fst (bind read_sess_header (fun _ => bind set_pixel_dtype (fun _ => check_sizes)) s)).
Proof.
  unfold bind at 1.
  pose proof (read_sess_header_no_RuntimeError s "Invalid DCIMG file") as H1.
  destruct (read_sess_header s) as [[[] | e |] s1]; cbn [fst] in *;
    [| exact H1 | discriminate].
  unfold bind.
  pose proof (set_pixel_dtype_no_magic_error s1) as H2.
  destruct (set_pixel_dtype s1) as [[[] | e |] s2]; cbn [fst] in *;
    [| exact H2 | discriminate].
  apply check_sizes_no_RuntimeError.
Qed.

Lemma open_split_file_header content s :
  open_ content s
  = bind (open_file_header content)
      (fun _ => bind read_sess_header
                  (fun _ => bind set_pixel_dtype (fun _ => check_sizes))) s.
Proof.
  unfold open_, open_file_header, _parse_header, bind, close, update.
  destruct (map_file content _) as [[m | e |] s0]; try reflexivity;
    destruct (read_file_header _) as [[[] | e' |] s1]; reflexivity.
Qed.

(** C9, the claim as stated fails: a file whose magic field is the literal
    followed by the three padding bytes [xyz] is refused with the error of
    an invalid file. *)
Lemma padded_magic_rejected :
  take 8 padded_magic_file = b_ "DCIMGxyz"
  /\ fst (opened padded_magic_file) = Raise (RuntimeError "Invalid DCIMG file").
Proof. split; vm_compute; reflexivity. Qed.

(** C9, amended: for a mapping of at least 72 bytes that starts with the
    literal [DCIMG], the check of the magic accepts the file, and [open] does
    not report an invalid file, when the three padding bytes are NUL; when
    one of them is not, [open] fails with the error of an invalid file. *)
Theorem magic_accepted_iff_padding_NUL (content : bytes) (s : DCIMGFile) :
  (72 <= length content)%nat ->
  take 5 content = b_ "DCIMG" ->
  (take 3 (drop 5 content) = zeros_bytes 3 ->
     fst (open_file_header content s) = Ok tt
     /\ not_RuntimeError "Invalid DCIMG file" (fst (open_ content s)))
  /\ (take 3 (drop 5 content) <> zeros_bytes 3 ->
     fst (open_ content s) = Raise (RuntimeError "Invalid DCIMG file")).
Proof.
  intros Hlen Hmagic.
  pose proof (open_file_header_eval content s Hlen Hmagic) as Hfh.
  rewrite (take_8_magic content) in Hfh by (lia || exact Hmagic).
  rewrite S_eq_magic in Hfh.
  assert (length (take 3 (drop 5 content)) = 3%nat) as Hpad
    by (rewrite length_take, length_drop; lia).
  rewrite Hpad in Hfh.
  rewrite open_split_file_header.
  split; intros Hp.
  - rewrite bool_decide_true in Hfh by exact Hp. cbv zeta in Hfh.
    rewrite (bind_Ok _ _ _ _ _ Hfh), Hfh. split; [reflexivity |].
    apply after_file_header_no_magic_error.
  - rewrite bool_decide_false in Hfh by exact Hp. cbv zeta in Hfh.
    rewrite (bind_Raise _ _ _ _ _ Hfh). reflexivity.
Qed.

Lemma magic_accepted_iff_padding_NUL_witness :
  fst (open_file_header sample_file (__init__ None)) = Ok tt
  /\ fst (open_ padded_magic_file (__init__ None))
     = Raise (RuntimeError "Invalid DCIMG file").
Proof.
  split.
  - apply (magic_accepted_iff_padding_NUL sample_file (__init__ None)).
    + vm_compute. lia.
    + vm_compute. reflexivity.
    + vm_compute. reflexivity.
  - apply (magic_accepted_iff_padding_NUL padded_magic_file (__init__ None)).
    + vm_compute. lia.
    + vm_compute. reflexivity.
    + vm_compute. discriminate.
Defined.

(** ** The pixel type and the sizes *)

Lemma check_sizes_state (s : DCIMGFile) : snd (check_sizes s) = s.
Proof.
  unfold check_sizes, bind, read, raise, ret.
  repeat (destruct_innermost; cbn [fst snd negb]); reflexivity.
Qed.

Lemma open_after_headers content s0 s1 :
  open_headers content s0 = (Ok tt, s1) ->
  open_ content s0 = bind set_pixel_dtype (fun _ => check_sizes) s1.
Proof.
  intros H. rewrite open_split, (bind_Ok _ _ _ _ _ H). reflexivity.
Qed.

Lemma set_pixel_dtype_eval (s : DCIMGFile) (bd : Z) :
  byte_depth s = Ok bd ->
  set_pixel_dtype s
  = if bd =? 1 then (Ok tt, set_dtype uint8 s)
    else if bd =? 2 then (Ok tt, set_dtype uint16 s)
    else (Raise (RuntimeError ("Invalid byte-depth: " ++ str_of_Z bd)), s).
Proof.
  intros Hbd. unfold set_pixel_dtype, bind, read, update, raise.
  rewrite Hbd. destruct (bd =? 1); [reflexivity |].
  rewrite Hbd. destruct (bd =? 2); [reflexivity |].
  rewrite Hbd. reflexivity.
Qed.

(** C6: once the two headers are read, a byte depth of 1 makes the pixel
    type the unsigned 8-bit one and a byte depth of 2 the unsigned 16-bit
    one, which is the pixel type of the instance when [open] returns or fails
    later; every other byte depth makes [open] fail with the [RuntimeError]
    that names the value. *)
Theorem open_byte_depth_dtype (content : bytes) (s0 s1 : DCIMGFile) (bd : Z) :
  open_headers content s0 = (Ok tt, s1) ->
  byte_depth s1 = Ok bd ->
  (bd = 1 -> set_pixel_dtype s1 = (Ok tt, set_dtype uint8 s1)
             /\ dtype (snd (open_ content s0)) = Some uint8)
  /\ (bd = 2 -> set_pixel_dtype s1 = (Ok tt, set_dtype uint16 s1)
                /\ dtype (snd (open_ content s0)) = Some uint16)
  /\ (bd <> 1 -> bd <> 2 ->
      open_ content s0
      = (Raise (RuntimeError ("Invalid byte-depth: " ++ str_of_Z bd)), s1)).
Proof.
  intros Hh Hbd. rewrite (open_after_headers _ _ _ Hh).
  pose proof (set_pixel_dtype_eval s1 bd Hbd) as Hset.
  repeat split.
  - subst bd. exact Hset.
  - subst bd. rewrite (bind_Ok _ _ _ _ _ Hset), check_sizes_state. reflexivity.
  - subst bd. exact Hset.
  - subst bd. rewrite (bind_Ok _ _ _ _ _ Hset), check_sizes_state. reflexivity.
  - intros H1 H2.
    destruct (Z.eqb_spec bd 1); [contradiction |].
    destruct (Z.eqb_spec bd 2); [contradiction |].
    rewrite (bind_Raise _ _ _ _ _ Hset). reflexivity.
Qed.

Lemma open_byte_depth_dtype_witness :
  dtype (snd (open_ sample_file fresh)) = Some uint16
  /\ open_ depth3_file fresh
     = (Raise (RuntimeError "Invalid byte-depth: 3"),
        snd (open_headers depth3_file fresh)).
Proof.
  split.
  - apply (open_byte_depth_dtype sample_file fresh
             (snd (open_headers sample_file fresh)) 2).
    + vm_compute. reflexivity.
    + vm_compute. reflexivity.
    + reflexivity.
  - apply (open_byte_depth_dtype depth3_file fresh
             (snd (open_headers depth3_file fresh)) 3).
    + vm_compute. reflexivity.
    + vm_compute. reflexivity.
    + lia.
    + lia.
Defined.

Lemma check_sizes_eval (s : DCIMGFile) (bpr bd ys bpi : Z) :
  bytes_per_row s = Ok bpr -> byte_depth s = Ok bd ->
  ysize s = Ok ys -> bytes_per_img s = Ok bpi ->
  check_sizes s
  = if negb (bpr =? wrap32 (bd * ys))
    then (Raise (KeyError "bytes_per_row"), s)
    else if negb (bpi =? wrap32 (bpr * ys))
    then (Raise (KeyError "bytes_per_img"), s)
    else (Ok tt, s).
Proof.
  intros Hbpr Hbd Hys Hbpi.
  unfold check_sizes, bind, read, raise, ret.
  rewrite Hbpr, Hbd, Hys.
  destruct (negb (bpr =? wrap32 (bd * ys))).
  - rewrite row_mismatch_message. reflexivity.
  - rewrite Hbpi, Hbpr, Hys.
    destruct (negb (bpi =? wrap32 (bpr * ys))).
    + rewrite img_mismatch_message. reflexivity.
    + reflexivity.
Qed.

(** C5, on the code: once the headers are read and the pixel type is set,
    a row size that differs from the byte depth times [ysize], or an image
    size that differs from the row size times [ysize] (products of 32-bit
    scalars), makes [open] fail, but with a [KeyError] on the name of the
    first field of the message that was to be reported: the message of the
    [RuntimeError] is never built. *)
Theorem open_size_mismatch_raises_KeyError
    (content : bytes) (s0 s1 s2 : DCIMGFile) (bpr bd ys bpi : Z) :
  open_headers content s0 = (Ok tt, s1) ->
  set_pixel_dtype s1 = (Ok tt, s2) ->
  bytes_per_row s2 = Ok bpr -> byte_depth s2 = Ok bd ->
  ysize s2 = Ok ys -> bytes_per_img s2 = Ok bpi ->
  (bpr <> wrap32 (bd * ys) ->
     open_ content s0 = (Raise (KeyError "bytes_per_row"), s2))
  /\ (bpr = wrap32 (bd * ys) -> bpi <> wrap32 (bpr * ys) ->
     open_ content s0 = (Raise (KeyError "bytes_per_img"), s2)).
Proof.
  intros Hh Hset Hbpr Hbd Hys Hbpi.
  rewrite (open_after_headers _ _ _ Hh), (bind_Ok _ _ _ _ _ Hset).
  rewrite (check_sizes_eval s2 bpr bd ys bpi Hbpr Hbd Hys Hbpi).
  split.
  - intros Hne. destruct (Z.eqb_spec bpr (wrap32 (bd * ys))); [contradiction |].
    reflexivity.
  - intros Heq Hne. destruct (Z.eqb_spec bpr (wrap32 (bd * ys))); [| contradiction].
    destruct (Z.eqb_spec bpi (wrap32 (bpr * ys))); [contradiction |].
    reflexivity.
Qed.

Lemma open_size_mismatch_witness :
  fst (open_ row_mismatch_file fresh) = Raise (KeyError "bytes_per_row")
  /\ fst (open_ img_mismatch_file fresh) = Raise (KeyError "bytes_per_img").
Proof.
  split.
  - pose (s1 := snd (open_headers row_mismatch_file fresh)).
    pose (s2 := snd (set_pixel_dtype s1)).
    assert (open_headers row_mismatch_file fresh = (Ok tt, s1)) as Hh
      by (vm_compute; reflexivity).
    assert (set_pixel_dtype s1 = (Ok tt, s2)) as Hset by (vm_compute; reflexivity).
    assert (bytes_per_row s2 = Ok 9) as Hbpr by (vm_compute; reflexivity).
    assert (byte_depth s2 = Ok 2) as Hbd by (vm_compute; reflexivity).
    assert (ysize s2 = Ok 4) as Hys by (vm_compute; reflexivity).
    assert (bytes_per_img s2 = Ok 32) as Hbpi by (vm_compute; reflexivity).
    assert (9 <> wrap32 (2 * 4)) as Hne by (vm_compute; discriminate).
    rewrite (proj1 (open_size_mismatch_raises_KeyError _ _ _ _ _ _ _ _
                      Hh Hset Hbpr Hbd Hys Hbpi) Hne).
    reflexivity.
  - pose (s1 := snd (open_headers img_mismatch_file fresh)).
    pose (s2 := snd (set_pixel_dtype s1)).
    assert (open_headers img_mismatch_file fresh = (Ok tt, s1)) as Hh
      by (vm_compute; reflexivity).
    assert (set_pixel_dtype s1 = (Ok tt, s2)) as Hset by (vm_compute; reflexivity).
    assert (bytes_per_row s2 = Ok 8) as Hbpr by (vm_compute; reflexivity).
    assert (byte_depth s2 = Ok 2) as Hbd by (vm_compute; reflexivity).
    assert (ysize s2 = Ok 4) as Hys by (vm_compute; reflexivity).
    assert (bytes_per_img s2 = Ok 33) as Hbpi by (vm_compute; reflexivity).
    assert (8 = wrap32 (2 * 4)) as Heq by (vm_compute; reflexivity).
    assert (33 <> wrap32 (8 * 4)) as Hne by (vm_compute; discriminate).
    rewrite (proj2 (open_size_mismatch_raises_KeyError _ _ _ _ _ _ _ _
                      Hh Hset Hbpr Hbd Hys Hbpi) Heq Hne).
    reflexivity.
Defined.

(** ** Timestamps *)

Lemma floor_log10_aux_spec (fuel : nat) (n : Z) :
  1 <= n < 10 ^ (Z.of_nat fuel + 1) ->
  0 <= floor_log10_aux fuel n
  /\ 10 ^ floor_log10_aux fuel n <= n < 10 ^ (floor_log10_aux fuel n + 1).
Proof.
  revert n. induction fuel as [| fuel IH]; intros n Hn.
  - cbn [floor_log10_aux]. change (10 ^ (Z.of_nat 0 + 1)) with 10 in Hn.
    change (10 ^ 0) with 1. change (10 ^ (0 + 1)) with 10. lia.
  - cbn [floor_log10_aux]. destruct (Z.ltb_spec n 10) as [Hlt | Hge].
    + change (10 ^ 0) with 1. change (10 ^ (0 + 1)) with 10. lia.
    + replace (Z.of_nat (S fuel) + 1) with (Z.succ (Z.of_nat fuel + 1)) in Hn by lia.
      rewrite Z.pow_succ_r in Hn by lia.
      assert (1 <= n / 10 < 10 ^ (Z.of_nat fuel + 1)) as Hq.
      { split.
        - apply Z.div_le_lower_bound; lia.
        - apply Z.div_lt_upper_bound; lia. }
      destruct (IH (n / 10) Hq) as (H0 & Hlo & Hhi).
      set (k := floor_log10_aux fuel (n / 10)) in *.
      pose proof (Z.mul_div_le n 10 ltac:(lia)) as Hle.
      pose proof (Z.mul_succ_div_gt n 10 ltac:(lia)) as Hgt.
      split; [lia |].
      replace (1 + k) with (Z.succ k) by lia.
      replace (Z.succ k + 1) with (Z.succ (k + 1)) by lia.
      rewrite !Z.pow_succ_r by lia. lia.
Qed.

(** [floor_log10] is the floor of the logarithm in base ten. *)
Lemma floor_log10_spec (n : Z) :
  0 < n ->
  0 <= floor_log10 n
  /\ 10 ^ floor_log10 n <= n < 10 ^ (floor_log10 n + 1).
Proof.
  intros Hn. unfold floor_log10. apply floor_log10_aux_spec.
  split; [lia |].
  rewrite Z2Nat.id by apply Z.log2_nonneg.
  pose proof (Z.log2_spec n Hn) as [_ Hlt].
  replace (Z.succ (Z.log2 n)) with (Z.log2 n + 1) in Hlt by lia.
  assert (2 ^ (Z.log2 n + 1) <= 10 ^ (Z.log2 n + 1)).
  { apply Z.pow_le_mono_l. lia. }
  lia.
Qed.

Lemma timestamps_step_mapped (s : DCIMGFile) (data : bytes) ts index i :
  mm s = Some (Mapped data) ->
  timestamps_step s (Ok (ts, index)) i
  = Ok (<[i := timestamp_at data index]> ts, index + 4 + 4).
Proof.
  intros Hmm. unfold timestamps_step, mm_slice, timestamp_at.
  cbn [rbind fst snd]. rewrite Hmm. reflexivity.
Qed.

(** The loop of [timestamps] from frame [a] on, for [k] frames: the cursor
    advances by eight bytes a frame and the entries [a], ..., [a + k - 1] of
    the array receive the values of the records crossed. *)
Lemma timestamps_loop_mapped (s : DCIMGFile) (data : bytes) (k : nat) :
  mm s = Some (Mapped data) ->
  forall (a : nat) (ts : list float) (index : Z),
    (a + k <= length ts)%nat ->
    exists ts',
      fold_left (timestamps_step s) (seq a k) (Ok (ts, index))
      = Ok (ts', index + 8 * Z.of_nat k)
      /\ length ts' = length ts
      /\ forall i,
           ts' !! i
           = if bool_decide (a <= i < a + k)%nat
             then Some (timestamp_at data (index + 8 * Z.of_nat (i - a)))
             else ts !! i.
Proof.
  intros Hmm. induction k as [| k IH]; intros a ts index Hlen.
  - exists ts. cbn [seq fold_left]. split; [f_equal; f_equal; lia |].
    split; [reflexivity |]. intros i.
    rewrite bool_decide_false by lia. reflexivity.
  - cbn [seq fold_left]. rewrite (timestamps_step_mapped s data) by exact Hmm.
    destruct (IH (S a) (<[a := timestamp_at data index]> ts) (index + 4 + 4))
      as (ts' & Hfold & Hl & Hget).
    { rewrite length_insert. lia. }
    exists ts'. split; [rewrite Hfold; f_equal; f_equal; lia |].
    split; [rewrite Hl, length_insert; reflexivity |].
    intros i. rewrite Hget.
    destruct (decide (i = a)) as [-> | Hia].
    + rewrite bool_decide_false by lia.
      rewrite bool_decide_true by lia.
      rewrite list_lookup_insert_eq by lia.
      do 2 f_equal. lia.
    + rewrite list_lookup_insert_ne by congruence.
      destruct (decide (S a <= i < S a + k)%nat) as [Hin | Hout].
      * rewrite !bool_decide_true by lia. do 2 f_equal. lia.
      * rewrite !bool_decide_false by lia. reflexivity.
Qed.

Lemma open_handle_props (s : DCIMGFile) (data : bytes) fh sh dt :
  open_handle s data fh sh dt ->
  bytes_per_img s = Ok (sh_bytes_per_img sh)
  /\ ysize s = Ok (sh_ysize sh)
  /\ xsize s = Ok (sh_xsize sh)
  /\ nfrms s = Ok (sh_nfrms sh)
  /\ byte_depth s = Ok (itemsize dt)
  /\ session_footer_offset s = Ok (footer_offset fh sh).
Proof.
  intros (Hmm & Hfh & Hsh & Hdt & Hbd & _).
  unfold bytes_per_img, ysize, xsize, nfrms, byte_depth, session_footer_offset,
    header_size, first_elem.
  rewrite Hfh, Hsh, Hbd. repeat split; reflexivity.
Qed.

Lemma footer_offset_range fh sh : 0 <= footer_offset fh sh < 2 ^ 64.
Proof. unfold footer_offset, wrap64. apply Z.mod_pos_bound. lia. Qed.

Lemma timestamp_at_beyond (data : bytes) (index : Z) :
  Z.of_nat (length data) <= index ->
  timestamp_at data index = float_of_int 0.
Proof.
  intros Hlen. unfold timestamp_at.
  assert (forall lo hi, Z.of_nat (length data) <= lo -> lo <= hi ->
            py_slice data lo hi = []) as Hempty.
  { intros lo hi Hlo Hhi. apply length_zero_iff_nil.
    rewrite py_slice_length by lia. lia. }
  rewrite !Hempty by lia. reflexivity.
Qed.


(** The values that [timestamps] returns on an open mapping, whatever the
    length of the mapping: one value a frame, decoded from the records that
    follow each other from the offset of the table. *)
Lemma timestamps_mapped (s : DCIMGFile) (data : bytes) (n off : Z) :
  mm s = Some (Mapped data) ->
  nfrms s = Ok n ->
  timestamp_offset s = Ok off ->
  exists ts,
    timestamps s = Ok ts
    /\ length ts = Z.to_nat n
    /\ (forall i, (i < Z.to_nat n)%nat ->
          ts !! i = Some (timestamp_at data (off + 8 * Z.of_nat i))).
Proof.
  intros Hmm Hn Hoff.
  unfold timestamps. rewrite Hn, Hoff. cbn [rbind].
  destruct (timestamps_loop_mapped s data (Z.to_nat n) Hmm 0
              (repeat (float_of_int 0) (Z.to_nat n)) off)
    as (ts & Hfold & Hl & Hget).
  { rewrite repeat_length. lia. }
  exists ts. rewrite Hfold. cbn [rbind fst].
  split; [reflexivity |].
  split; [rewrite Hl, repeat_length; reflexivity |].
  intros i Hi. rewrite Hget, bool_decide_true by lia. do 2 f_equal. lia.
Qed.

(** The offset of the table of the timestamps on an open handle. *)
Lemma timestamp_offset_handle (s : DCIMGFile) (data : bytes) fh sh dt :
  open_handle s data fh sh dt ->
  exists off,
    timestamp_offset s = Ok off
    /\ (footer_offset fh sh + 272 + 4 * sh_nfrms sh < 2 ^ 63 ->
        off = footer_offset fh sh + 272 + 4 * sh_nfrms sh).
Proof.
  intros Hopen.
  destruct (open_handle_props s data fh sh dt Hopen) as (_ & _ & _ & Hn & _ & Hsfo).
  destruct Hopen as (_ & _ & _ & _ & _ & _ & Hnr & _).
  pose proof (footer_offset_range fh sh) as Hfo.
  unfold timestamp_offset. rewrite Hsfo, Hn. cbn [rbind].
  eexists. split; [reflexivity |].
  intros Hbound. rewrite (i64_id (4 * sh_nfrms sh)) by lia.
  rewrite i64_id by lia. reflexivity.
Qed.

Lemma timestamp_at_in_range (data : bytes) (index : Z) :
  0 <= index -> index + 8 <= Z.of_nat (length data) ->
  timestamp_at data index
  = timestamp_value (from_bytes_little (peek data index 4))
      (from_bytes_little (peek data (index + 4) 4)).
Proof.
  intros H0 Hlen. unfold timestamp_at, peek.
  rewrite !py_slice_in_range by lia.
  do 3 f_equal; lia.
Qed.



(** ** Open handles *)

Lemma fromstring_short {R} (decode : bytes -> R) (size : Z) (raw : bytes) rs :
  0 < size -> Z.of_nat (length raw) <= size ->
  fromstring decode size raw = Ok rs ->
  (raw = [] /\ rs = [])
  \/ (Z.of_nat (length raw) = size /\ rs = [decode raw]).
Proof.
  intros Hsize Hlen. unfold fromstring.
  destruct (Z.eqb_spec (Z.of_nat (length raw) mod size) 0) as [Hmod | Hmod];
    [| discriminate].
  intros [= <-].
  destruct (Z.eq_dec (Z.of_nat (length raw)) size) as [Heq | Hne].
  - right. split; [exact Heq |].
    rewrite Heq, Z.div_same by lia. change (Z.to_nat 1) with 1%nat.
    cbn [records]. rewrite take_ge by lia. reflexivity.
  - left. rewrite Z.mod_small in Hmod by lia.
    destruct raw; [| cbn [length] in Hmod; lia]. split; reflexivity.
Qed.

Lemma read_file_header_Ok_inv (s s1 : DCIMGFile) (data : bytes) :
  mm s = Some (Mapped data) ->
  read_file_header s = (Ok tt, s1) ->
  s1 = set_file_header [decode_file_hdr (py_slice data 0 72)]
         (set_file_header [decode_file_hdr (zeros_bytes 72)] s).
Proof.
  intros Hmm. unfold read_file_header, bind, update, read, lift, mm_slice, raise, ret.
  cbn [mm set_file_header file_header]. rewrite Hmm.
  destruct (fromstring decode_file_hdr FILE_HDR_nbytes (py_slice data 0 FILE_HDR_nbytes))
    as [fh | e |] eqn:Hfs; try discriminate.
  apply fromstring_short in Hfs.
  - destruct Hfs as [[Hraw ->] | [Hraw ->]]; cbn [rbind file_format_matches map array_truth negb].
    + discriminate.
    + destruct (S_eq _ _); cbn [negb]; [| discriminate].
      intros [= <-]. reflexivity.
  - unfold FILE_HDR_nbytes. lia.
  - rewrite py_slice_length by (unfold FILE_HDR_nbytes; lia).
    unfold FILE_HDR_nbytes. lia.
Qed.

Lemma read_sess_header_Ok_inv (s s1 : DCIMGFile) (data : bytes) (fh : file_hdr) fhs :
  mm s = Some (Mapped data) ->
  file_header s = Some (fh :: fhs) ->
  0 <= fh_header_size fh ->
  read_sess_header s = (Ok tt, s1) ->
  let raw := py_slice data (fh_header_size fh) (fh_header_size fh + 80) in
  s1 = set_sess_header (if decide (raw = []) then [] else [decode_sess_hdr raw])
         (set_sess_header [decode_sess_hdr (zeros_bytes 80)] s).
Proof.
  intros Hmm Hfh Hhs. unfold read_sess_header, bind, update, read, lift, mm_slice,
    header_size, first_elem.
  cbn [mm set_sess_header file_header]. rewrite Hmm, Hfh.
  change SESS_HDR_nbytes with 80.
  destruct (fromstring decode_sess_hdr 80 _) as [sh | e |] eqn:Hfs; try discriminate.
  intros [= <-].
  set (raw := py_slice data (fh_header_size fh) (fh_header_size fh + 80)) in *.
  apply fromstring_short in Hfs.
  - destruct Hfs as [[Hraw ->] | [Hraw ->]].
    + rewrite decide_True by exact Hraw. reflexivity.
    + rewrite decide_False; [reflexivity |].
      intros Hnil. rewrite Hnil in Hraw. discriminate.
  - lia.
  - unfold raw. rewrite py_slice_length by lia. lia.
Qed.

Lemma open_Ok_handle (content : bytes) (s0 s : DCIMGFile) :
  open_ content s0 = (Ok tt, s) ->
  exists fh sh dt, open_handle s content fh sh dt /\ valid_sizes sh.
Proof.
  intros Hopen.
  destruct (decide (content = [])) as [-> | Hc];
    [rewrite open_empty in Hopen; discriminate Hopen |].
  destruct (decide (py_slice content 0 5 = b_ "DCIMG")) as [Hmagic | Hne].
  2: { rewrite (open_closed_mapping content s0 Hc Hne) in Hopen. discriminate Hopen. }
  rewrite open_split_file_header in Hopen.
  apply bind_Ok_inv in Hopen. destruct Hopen as ([] & s1 & Hfile & Hopen).
  apply bind_Ok_inv in Hopen. destruct Hopen as ([] & s2 & Hsess & Hopen).
  apply bind_Ok_inv in Hopen. destruct Hopen as ([] & s3 & Hdtype & Hsizes).
  rewrite (open_file_header_nonempty content Hc) in Hfile.
  unfold bytes_eqb in Hfile.
  rewrite bool_decide_true in Hfile by exact Hmagic.
  unfold close, update, bind in Hfile. cbn [negb] in Hfile.
  apply (read_file_header_Ok_inv _ _ content) in Hfile; [| reflexivity].
  set (fh := decode_file_hdr (py_slice content 0 72)) in *.
  assert (0 <= fh_header_size fh < 2 ^ 32) as Hhs by (apply (ufield_bound _ 40 4)).
  apply (read_sess_header_Ok_inv _ _ content fh []) in Hsess;
    [| subst s1; reflexivity | subst s1; reflexivity | lia].
  cbv zeta in Hsess.
  set (raw := py_slice content (fh_header_size fh) (fh_header_size fh + 80)) in *.
  destruct (decide (raw = [])) as [Hraw | Hraw].
  { subst s2. unfold set_pixel_dtype, bind, read, byte_depth, first_elem in Hdtype.
    cbn [sess_header set_sess_header] in Hdtype. discriminate. }
  set (sh := decode_sess_hdr raw) in *.
  assert (byte_depth s2 = Ok (sh_byte_depth sh)) as Hbd by (subst s2; reflexivity).
  rewrite (set_pixel_dtype_eval s2 _ Hbd) in Hdtype.
  assert (exists dt, sh_byte_depth sh = itemsize dt /\ s3 = set_dtype dt s2)
    as (dt & Hdt & ->).
  { destruct (Z.eqb_spec (sh_byte_depth sh) 1) as [H1 | H1].
    - exists uint8. injection Hdtype as <-. split; [exact H1 | reflexivity].
    - destruct (Z.eqb_spec (sh_byte_depth sh) 2) as [H2 | H2]; [| discriminate].
      exists uint16. injection Hdtype as <-. split; [exact H2 | reflexivity]. }
  rewrite (check_sizes_eval _ (sh_bytes_per_row sh) (sh_byte_depth sh)
             (sh_ysize sh) (sh_bytes_per_img sh)) in Hsizes
    by (subst s2; reflexivity).
  destruct (Z.eqb_spec (sh_bytes_per_row sh) (wrap32 (sh_byte_depth sh * sh_ysize sh)))
    as [Hrow | Hrow]; [| discriminate].
  destruct (Z.eqb_spec (sh_bytes_per_img sh) (wrap32 (sh_bytes_per_row sh * sh_ysize sh)))
    as [Himg | Himg]; [| discriminate].
  cbn [negb] in Hsizes. injection Hsizes as <-.
  exists fh, sh, dt. split; [| split; assumption].
  subst s2 s1. unfold open_handle.
  cbn [mm file_header sess_header dtype set_dtype set_sess_header set_file_header set_mm].
  repeat split; try reflexivity; try exact Hdt; try apply Hhs;
    first [ apply (ufield_bound _ 32 4) | apply (ufield_bound _ 44 4)
          | apply (ufield_bound _ 52 4) | apply (ufield_bound _ 56 4)
          | apply (ufield_bound _ 72 8) ].
Qed.

(** ** Reading and writing the mapping *)

Lemma length_poke (bs data : bytes) (pos : nat) :
  length (poke data pos bs) = length data.
Proof.
  revert data pos. induction bs as [| b bs IH]; intros data pos; cbn [poke].
  - reflexivity.
  - rewrite IH. rewrite length_insert. reflexivity.
Qed.

Lemma lookup_poke (bs data : bytes) (pos j : nat) :
  (pos + length bs <= length data)%nat ->
  poke data pos bs !! j
  = if bool_decide (pos <= j < pos + length bs)%nat
    then bs !! (j - pos)%nat else data !! j.
Proof.
  revert data pos. induction bs as [| b bs IH]; intros data pos Hlen;
    cbn [poke length] in *.
  - rewrite bool_decide_false by lia. reflexivity.
  - rewrite IH by (rewrite length_insert; lia).
    destruct (decide (j = pos)) as [-> | Hj].
    + rewrite bool_decide_false by lia. rewrite bool_decide_true by lia.
      rewrite list_lookup_insert_eq by lia. rewrite Nat.sub_diag. reflexivity.
    + rewrite list_lookup_insert_ne by congruence.
      destruct (decide (S pos <= j < S pos + length bs)%nat) as [Hin | Hout].
      * rewrite !bool_decide_true by lia.
        replace (j - pos)%nat with (S (j - S pos)) by lia. reflexivity.
      * rewrite !bool_decide_false by lia. reflexivity.
Qed.

Lemma length_peek (data : bytes) (pos count : Z) :
  0 <= pos -> 0 <= count -> pos + count <= Z.of_nat (length data) ->
  length (peek data pos count) = Z.to_nat count.
Proof.
  intros Hp Hc Hlen. unfold peek. rewrite length_take, length_drop. lia.
Qed.

Lemma lookup_peek (data : bytes) (pos count : Z) (m : nat) :
  0 <= pos -> (m < Z.to_nat count)%nat ->
  peek data pos count !! m = data !! (Z.to_nat pos + m)%nat.
Proof.
  intros Hp Hm. unfold peek. rewrite lookup_take_lt by lia.
  apply lookup_drop.
Qed.

(** Two reads that see the same bytes give the same block. *)
Lemma peek_ext (d1 d2 : bytes) (p1 p2 count : Z) :
  0 <= p1 -> 0 <= p2 ->
  (forall m, (m < Z.to_nat count)%nat ->
     d1 !! (Z.to_nat p1 + m)%nat = d2 !! (Z.to_nat p2 + m)%nat) ->
  peek d1 p1 count = peek d2 p2 count.
Proof.
  intros H1 H2 Hext. apply list_eq. intros m. unfold peek.
  rewrite !lookup_take. destruct (decide (m < Z.to_nat count)%nat) as [Hm | Hm].
  - rewrite !lookup_drop. apply Hext. exact Hm.
  - reflexivity.
Qed.
(** ** The loop of [layer] *)

Lemma ndarray_new_corner (s : DCIMGFile) (data : bytes) (dt : np_dtype) (idx : Z) :
  mm s = Some (Mapped data) -> dtype s = Some dt ->
  0 <= idx -> idx + 4 * itemsize dt <= Z.of_nat (length data) ->
  ndarray_new [1; 1; 4] idx s = Ok (View [1; 1; 4] dt idx).
Proof.
  intros Hmm Hdt H0 Hlen. unfold ndarray_new. rewrite Hmm, Hdt.
  change (prod_list [1; 1; 4]) with 4.
  destruct (Z.ltb_spec (Z.of_nat (length data)) (idx + itemsize dt * 4)); [lia |].
  cbn [existsb orb]. change (1 <? 0) with false. change (4 <? 0) with false.
  cbn [orb]. destruct (Z.ltb_spec idx 0); [lia | reflexivity].
Qed.

Lemma ndarray_new_too_small (s : DCIMGFile) (data : bytes) (dt : np_dtype)
    (shp : list Z) (offset : Z) :
  mm s = Some (Mapped data) -> dtype s = Some dt ->
  Z.of_nat (length data) < offset + itemsize dt * prod_list shp ->
  ndarray_new shp offset s
  = Raise (TypeError "buffer is too small for requested array").
Proof.
  intros Hmm Hdt Hlen. unfold ndarray_new. rewrite Hmm, Hdt.
  destruct (Z.ltb_spec (Z.of_nat (length data)) (offset + itemsize dt * prod_list shp));
    [reflexivity | lia].
Qed.

Lemma setitem_corner_ok (s : DCIMGFile) (data : bytes) (dt dt' : np_dtype)
    (d0 d1 d2 off i src : Z) :
  mm s = Some (Mapped data) ->
  0 <= i < d0 -> 0 < d1 -> 4 <= d2 ->
  setitem_corner (View [d0; d1; d2] dt off) i (View [1; 1; 4] dt' src) s
  = (Ok tt,
     set_mm (Some (Mapped (poke data (Z.to_nat (off + itemsize dt * (i * d1 * d2)))
                             (peek data src (4 * itemsize dt))))) s).
Proof.
  intros Hmm Hi Hd1 Hd2. unfold setitem_corner. rewrite Hmm.
  destruct (Z.leb_spec 0 i); [| lia]. destruct (Z.ltb_spec i d0); [| lia].
  destruct (Z.ltb_spec 0 d1); [| lia]. rewrite Z.min_l by lia.
  cbn [andb negb Z.eqb Pos.eqb]. unfold elem_pos.
  do 6 f_equal. lia.
Qed.

Lemma set_mm_same (s : DCIMGFile) (m : mmap) :
  mm s = Some m -> set_mm (Some m) s = s.
Proof. destruct s. cbn. intros ->. reflexivity. Qed.

Lemma itemsize_range (dt : np_dtype) : 1 <= itemsize dt <= 2.
Proof. destruct dt; cbn; lia. Qed.

Section LayerLoop.

Variables (dt : np_dtype) (d0 d1 d2 off : Z).
Hypothesis Hd1 : 1 <= d1.
Hypothesis Hd2 : 4 <= d2.
Hypothesis Hoff : 0 <= off.

(** The size of an element and of a frame of the view. *)
Let bd : Z := itemsize dt.
Let F : Z := bd * (d1 * d2).

(** The loop over [k] frames from frame [i0], with the corner table read
    from [idx] on, when the table lies after the view and within the
    mapping: the loop succeeds; it leaves the bytes after the view as they
    were; in the block of a frame it handled, the first four elements
    are those of the table; the other bytes are unchanged. *)
Lemma layer_loop_ok (k : nat) :
  forall (i0 idx : Z) (s : DCIMGFile) (data : bytes),
    mm s = Some (Mapped data) -> dtype s = Some dt -> byte_depth s = Ok bd ->
    0 <= i0 -> i0 + Z.of_nat k <= d0 ->
    off + F * d0 <= idx ->
    idx + 4 * bd * Z.of_nat k <= Z.of_nat (length data) ->
    Z.of_nat (length data) < 2 ^ 63 ->
    exists data',
      layer_loop (View [d0; d1; d2] dt off) k i0 idx s
      = (Ok tt, set_mm (Some (Mapped data')) s)
      /\ length data' = length data
      /\ (forall j : nat, off + F * d0 <= Z.of_nat j -> data' !! j = data !! j)
      /\ (forall (i : Z) (j : nat),
            0 <= i < d0 ->
            off + F * i <= Z.of_nat j < off + F * (i + 1) ->
            data' !! j
            = if bool_decide (i0 <= i < i0 + Z.of_nat k
                              /\ Z.of_nat j < off + F * i + 4 * bd)
              then data !! Z.to_nat (idx + 4 * bd * (i - i0)
                                     + (Z.of_nat j - (off + F * i)))
              else data !! j).
Proof.
  pose proof (itemsize_range dt) as Hbd. fold bd in Hbd.
  assert (4 <= d1 * d2) as Hd12 by nia.
  assert (4 * bd <= F) as HF by (unfold F; nia).
  induction k as [| k IH]; intros i0 idx s data Hmm Hdt Hdepth Hi0 Hk Hidx Hlen Hmax.
  - exists data. cbn [layer_loop]. unfold ret.
    rewrite (set_mm_same s _ Hmm).
    split; [reflexivity |]. split; [reflexivity |].
    split; [reflexivity |].
    intros i j Hi Hj. rewrite bool_decide_false by lia. reflexivity.
  - assert (4 * bd * Z.of_nat (S k) = 4 * bd + 4 * bd * Z.of_nat k) as Hk1 by lia.
    assert (0 <= 4 * bd * Z.of_nat k) as Hk0 by (apply Z.mul_nonneg_nonneg; lia).
    assert (0 <= F * i0) as HFi0 by (apply Z.mul_nonneg_nonneg; lia).
    assert (F * (i0 + 1) <= F * d0) as Hfr
      by (apply Z.mul_le_mono_nonneg_l; lia).
    cbn [layer_loop]. unfold bind at 1, read at 1.
    rewrite (ndarray_new_corner s data dt idx Hmm Hdt) by (fold bd; lia).
    unfold bind at 1.
    rewrite (setitem_corner_ok s data dt dt d0 d1 d2 off i0 idx Hmm) by lia.
    fold bd.
    set (dst := off + bd * (i0 * d1 * d2)).
    set (block := peek data idx (4 * bd)).
    set (data1 := poke data (Z.to_nat dst) block).
    set (s1 := set_mm (Some (Mapped data1)) s).
    assert (dst = off + F * i0) as Hdst by (unfold dst, F; lia).
    assert (length block = Z.to_nat (4 * bd)) as Hblock
      by (apply length_peek; lia).
    assert (length data1 = length data) as Hl1 by apply length_poke.
    assert (byte_depth s1 = Ok bd) as Hdepth1 by exact Hdepth.
    unfold bind at 1, read at 1. rewrite Hdepth1.
    rewrite (i64_id (4 * bd)) by lia. rewrite i64_id by lia.
    destruct (IH (i0 + 1) (idx + 4 * bd) s1 data1) as (data' & Hrun & Hl & Hafter & Hin);
      try reflexivity; try assumption; try lia.
    exists data'. split; [exact Hrun |].
    split; [lia |].
    assert (forall j : nat,
              ~ (dst <= Z.of_nat j < dst + 4 * bd) -> data1 !! j = data !! j)
      as Hout.
    { intros j Hj. unfold data1. rewrite lookup_poke by lia.
      rewrite bool_decide_false by lia. reflexivity. }
    split.
    + intros j Hj. rewrite Hafter by exact Hj. apply Hout. lia.
    + intros i j Hi Hj. rewrite (Hin i j Hi Hj).
      destruct (decide (i = i0)) as [-> | Hne].
      * rewrite bool_decide_false by lia.
        destruct (decide (Z.of_nat j < off + F * i0 + 4 * bd)) as [Hlt | Hge].
        -- rewrite bool_decide_true by lia.
           unfold data1. rewrite lookup_poke by lia.
           rewrite bool_decide_true by lia.
           unfold block. rewrite lookup_peek by lia.
           f_equal. lia.
        -- rewrite bool_decide_false by lia. apply Hout. lia.
      * assert (F * (i + 1) <= F * i0 \/ F * (i0 + 1) <= F * i) as Hsep.
        { destruct (Z.lt_ge_cases i i0).
          - left. apply Z.mul_le_mono_nonneg_l; lia.
          - right. apply Z.mul_le_mono_nonneg_l; lia. }
        destruct (decide (i0 + 1 <= i < i0 + 1 + Z.of_nat k
                          /\ Z.of_nat j < off + F * i + 4 * bd)) as [Hc | Hc].
        -- rewrite !bool_decide_true by lia.
           assert (0 <= 4 * bd * (i - (i0 + 1))) as Hpos
             by (apply Z.mul_nonneg_nonneg; lia).
           rewrite Hout by lia. f_equal. lia.
        -- rewrite !bool_decide_false by lia. apply Hout. lia.
Qed.

End LayerLoop.

(** ** [layer] *)


Lemma frame_elem_bounds (ys xs y x : Z) :
  0 <= y < ys -> 0 <= x < xs ->
  0 <= y * xs + x /\ y * xs + x + 1 <= ys * xs.
Proof. intros Hy Hx. nia. Qed.

Lemma frame_elem_after_corner (xs y x : Z) :
  0 <= y -> 0 <= x -> 4 <= xs -> ~ (y = 0 /\ x < 4) -> 4 <= y * xs + x.
Proof. intros Hy Hx Hxs Hn. nia. Qed.

Lemma ndarray_new_view (s : DCIMGFile) (data : bytes) (dt : np_dtype)
    (d0 d1 d2 offset : Z) :
  mm s = Some (Mapped data) -> dtype s = Some dt ->
  0 <= d0 -> 0 <= d1 -> 0 <= d2 -> 0 <= offset ->
  offset + itemsize dt * (d0 * d1 * d2) <= Z.of_nat (length data) ->
  ndarray_new [d0; d1; d2] offset s = Ok (View [d0; d1; d2] dt offset).
Proof.
  intros Hmm Hdt H0 H1 H2 Hoff Hlen. unfold ndarray_new. rewrite Hmm, Hdt.
  assert (prod_list [d0; d1; d2] = d0 * d1 * d2) as -> by (cbn; lia).
  destruct (Z.ltb_spec (Z.of_nat (length data)) (offset + itemsize dt * (d0 * d1 * d2)));
    [lia |].
  cbn [existsb]. destruct (Z.ltb_spec d0 0); [lia |].
  destruct (Z.ltb_spec d1 0); [lia |]. destruct (Z.ltb_spec d2 0); [lia |].
  cbn [orb]. destruct (Z.ltb_spec offset 0); [lia | reflexivity].
Qed.

Section Layer.

Variables (s : DCIMGFile) (data : bytes) (fh : file_hdr) (sh : sess_hdr)
  (dt : np_dtype) (index fpl : Z).
Hypothesis Hopen : open_handle s data fh sh dt.

Let bd : Z := itemsize dt.
Let ys : Z := sh_ysize sh.
Let xs : Z := sh_xsize sh.
Let offset : Z := 232 + sh_bytes_per_img sh * fpl * index.
Let corner : Z :=
  footer_offset fh sh + 272 + sh_nfrms sh * (4 + 8) + 4 * bd * (index * fpl).

Hypothesis Hindex : 0 <= index.
Hypothesis Hfpl : 0 <= fpl.
Hypothesis Hys : 1 <= ys.
Hypothesis Hxs : 4 <= xs.
Hypothesis Hmul1 : sh_bytes_per_img sh * fpl < 2 ^ 63.
Hypothesis Hmul2 : 4 * bd * index < 2 ^ 63.
Hypothesis Hbefore : offset + bd * (fpl * ys * xs) <= corner.
Hypothesis Hwithin : corner + 4 * bd * fpl <= Z.of_nat (length data).
Hypothesis Hmax : Z.of_nat (length data) < 2 ^ 63.

(** The run of [layer] on a request whose view lies before the corner
    table and whose corner reads lie within the mapping. *)
Lemma layer_run :
  exists data',
    layer index fpl None s
    = (Ok (View [fpl; ys; xs] dt offset), set_mm (Some (Mapped data')) s)
    /\ length data' = length data
    /\ (forall (i : Z) (j : nat),
          0 <= i < fpl ->
          offset + bd * (ys * xs) * i <= Z.of_nat j
            < offset + bd * (ys * xs) * (i + 1) ->
          data' !! j
          = if bool_decide (Z.of_nat j < offset + bd * (ys * xs) * i + 4 * bd)
            then data !! Z.to_nat (corner + 4 * bd * i
                                   + (Z.of_nat j - (offset + bd * (ys * xs) * i)))
            else data !! j).
Proof.
  destruct (open_handle_props s data fh sh dt Hopen)
    as (Hbpi & Hysize & Hxsize & Hn & Hdepth & Hsfo).
  destruct Hopen as (Hmm & _ & _ & Hdt & _ & _ & Hnr & Hxr & Hyr & Hbr & _).
  pose proof (itemsize_range dt) as Hbd. fold bd in Hbd.
  pose proof (footer_offset_range fh sh) as Hfo.
  assert (0 <= sh_bytes_per_img sh * fpl) as Hp1 by (apply Z.mul_nonneg_nonneg; lia).
  assert (0 <= sh_bytes_per_img sh * fpl * index) as Hp2
    by (apply Z.mul_nonneg_nonneg; lia).
  assert (0 <= fpl * ys * xs) as Hp3
    by (repeat apply Z.mul_nonneg_nonneg; unfold ys, xs; lia).
  assert (0 <= bd * (fpl * ys * xs)) as Hp4 by (apply Z.mul_nonneg_nonneg; lia).
  assert (0 <= 4 * bd * index) as Hp5 by (apply Z.mul_nonneg_nonneg; lia).
  assert (0 <= 4 * bd * index * fpl) as Hp6 by (apply Z.mul_nonneg_nonneg; lia).
  assert (0 <= 4 * bd * fpl) as Hp7 by (apply Z.mul_nonneg_nonneg; lia).
  assert (4 * bd * (index * fpl) = 4 * bd * index * fpl) as Hassoc by lia.
  unfold layer.
  unfold bind at 1, read at 1. rewrite Hbpi.
  unfold bind at 1, read at 1. rewrite Hysize.
  unfold bind at 1, read at 1. rewrite Hxsize.
  rewrite (i64_id (sh_bytes_per_img sh * fpl)) by lia.
  rewrite (i64_id (sh_bytes_per_img sh * fpl * index)) by (unfold offset in *; lia).
  rewrite (i64_id (232 + _)) by (unfold offset in *; lia).
  fold offset. fold ys. fold xs.
  unfold bind at 1, read at 1.
  rewrite (ndarray_new_view s data dt fpl ys xs offset Hmm Hdt)
    by (fold bd; unfold ys, xs, offset in *; lia).
  unfold bind at 1, read at 1. rewrite Hsfo.
  unfold bind at 1, read at 1. rewrite Hn.
  unfold bind at 1, read at 1. rewrite Hdepth. fold bd.
  rewrite (i64_id (sh_nfrms sh * (4 + 8))) by lia.
  rewrite (i64_id (footer_offset fh sh + 272 + _)) by (unfold corner in *; lia).
  rewrite (i64_id (4 * bd)) by lia.
  rewrite (i64_id (4 * bd * index)) by lia.
  rewrite (i64_id (4 * bd * index * fpl)) by (unfold corner in *; lia).
  rewrite i64_id by (unfold corner in *; lia).
  replace (footer_offset fh sh + 272 + sh_nfrms sh * (4 + 8) + 4 * bd * index * fpl)
    with corner by (unfold corner; lia).
  destruct (layer_loop_ok dt fpl ys xs offset Hys Hxs ltac:(unfold offset; lia)
              (Z.to_nat fpl) 0 corner s data Hmm Hdt Hdepth)
    as (data' & Hrun & Hlen & _ & Hin).
  { lia. }
  { lia. }
  { fold bd. replace (bd * (ys * xs) * fpl) with (bd * (fpl * ys * xs)) by lia.
    exact Hbefore. }
  { fold bd. rewrite Z2Nat.id by lia. exact Hwithin. }
  { exact Hmax. }
  exists data'. unfold bind at 1. rewrite Hrun. unfold ret.
  split; [reflexivity |]. split; [exact Hlen |].
  intros i j Hi Hj. fold bd in Hin. rewrite (Hin i j Hi Hj).
  destruct (decide (Z.of_nat j < offset + bd * (ys * xs) * i + 4 * bd)) as [Hlt | Hge].
  - rewrite !bool_decide_true by lia. f_equal. lia.
  - rewrite !bool_decide_false by lia. reflexivity.
Qed.

End Layer.

(** C1, amended: on an open handle, for a layer index and a number of frames
    per layer that are not negative, frames of at least one row and four
    columns, a pixel view that ends before the corner table and corner reads
    that lie within the mapping (offsets within 64 bits), [layer] returns a
    view of shape [(frames_per_layer, ysize, xsize)] in the pixel type of the
    file at byte offset [232 + bytes_per_img * frames_per_layer * index]; in
    frame [i] of the view the elements [(0, 0)] to [(0, 3)] are the four
    elements of the corner table at
    [session_footer_offset + 272 + nfrms * (4 + 8)
       + 4 * byte_depth * (index * frames_per_layer + i)],
    and every other element is the one stored at its place in the pixel
    block of the mapping as it was before the call. *)
Theorem layer_view_restored (s : DCIMGFile) (data : bytes) (fh : file_hdr)
    (sh : sess_hdr) (dt : np_dtype) (index fpl : Z) :
  open_handle s data fh sh dt ->
  let bd := itemsize dt in
  let ys := sh_ysize sh in
  let xs := sh_xsize sh in
  let offset := 232 + sh_bytes_per_img sh * fpl * index in
  let corner i :=
    footer_offset fh sh + 272 + sh_nfrms sh * (4 + 8)
    + 4 * bd * (index * fpl + i) in
  0 <= index -> 0 <= fpl -> 1 <= ys -> 4 <= xs ->
  sh_bytes_per_img sh * fpl < 2 ^ 63 -> 4 * bd * index < 2 ^ 63 ->
  offset + bd * (fpl * ys * xs) <= corner 0 ->
  corner fpl <= Z.of_nat (length data) ->
  Z.of_nat (length data) < 2 ^ 63 ->
  exists s',
    layer index fpl None s = (Ok (View [fpl; ys; xs] dt offset), s')
    /\ forall i y x,
         0 <= i < fpl -> 0 <= y < ys -> 0 <= x < xs ->
         arr_get s' (View [fpl; ys; xs] dt offset) [i; y; x]
         = Some (if (y =? 0) && (x <? 4)
                 then elem_at data dt (corner i + bd * x)
                 else elem_at data dt (offset + bd * ((i * ys + y) * xs + x))).
Proof.
  intros Hopen bd ys xs offset corner Hindex Hfpl Hys Hxs Hm1 Hm2 Hbefore Hwithin Hmax.
  pose proof (itemsize_range dt) as Hbd. fold bd in Hbd.
  assert (forall i, corner i = corner 0 + 4 * bd * i) as Hcorner
    by (intros i; unfold corner; lia).
  destruct (layer_run s data fh sh dt index fpl Hopen Hindex Hfpl Hys Hxs Hm1 Hm2)
    as (data' & Hrun & Hlen & Hin).
  { fold bd ys xs offset. unfold corner in Hbefore.
    replace (index * fpl + 0) with (index * fpl) in Hbefore by lia. exact Hbefore. }
  { fold bd. rewrite (Hcorner fpl) in Hwithin. unfold corner in Hwithin.
    replace (index * fpl + 0) with (index * fpl) in Hwithin by lia. exact Hwithin. }
  { exact Hmax. }
  fold bd ys xs offset in Hrun, Hin.
  replace (footer_offset fh sh + 272 + sh_nfrms sh * (4 + 8) + 4 * bd * (index * fpl))
    with (corner 0) in Hin by (unfold corner; f_equal; lia).
  eexists. split; [exact Hrun |].
  intros i y x Hi Hy Hx.
  destruct (frame_elem_bounds ys xs y x Hy Hx) as [Hlo Hhi].
  set (e := y * xs + x) in *.
  assert (0 <= bd * (ys * xs) * i) as HFi
    by (repeat apply Z.mul_nonneg_nonneg; lia).
  assert (bd * e + bd <= bd * (ys * xs)) as Hebd.
  { replace (bd * e + bd) with (bd * (e + 1)) by lia.
    apply Z.mul_le_mono_nonneg_l; lia. }
  assert (0 <= bd * e) as Hbe by (apply Z.mul_nonneg_nonneg; lia).
  assert (bd * (ys * xs) * (i + 1) <= bd * (ys * xs) * fpl) as Hframes
    by (apply Z.mul_le_mono_nonneg_l; [apply Z.mul_nonneg_nonneg; lia | lia]).
  assert (bd * (ys * xs) * fpl = bd * (fpl * ys * xs)) as Hview by lia.
  assert (0 <= 4 * bd * i) as Hci by (apply Z.mul_nonneg_nonneg; lia).
  assert (0 <= 4 * bd * fpl) as Hcfpl by (apply Z.mul_nonneg_nonneg; lia).
  pose proof (Hcorner fpl) as Hcorner_fpl.
  pose proof (Hcorner i) as Hcorner_i.
  assert (4 * bd * (i + 1) <= 4 * bd * fpl) as Hcf
    by (apply Z.mul_le_mono_nonneg_l; lia).
  assert (offset + bd * ((i * ys + y) * xs + x) = offset + bd * (ys * xs) * i + bd * e)
    as Hpos by (unfold e; lia).
  assert (0 <= offset) as Hoff.
  { unfold offset. destruct Hopen as (_ & _ & _ & _ & _ & _ & _ & _ & _ & Hb & _).
    assert (0 <= sh_bytes_per_img sh * fpl * index)
      by (repeat apply Z.mul_nonneg_nonneg; lia).
    lia. }
  unfold arr_get. cbn [arr_shape flat_index].
  destruct (Z.leb_spec 0 i); [| lia]. destruct (Z.ltb_spec i fpl); [| lia].
  destruct (Z.leb_spec 0 y); [| lia]. destruct (Z.ltb_spec y ys); [| lia].
  destruct (Z.leb_spec 0 x); [| lia]. destruct (Z.ltb_spec x xs); [| lia].
  cbn [andb]. unfold flat_get. cbn [mm set_mm].
  replace ((0 * fpl + i) * ys + y) with (i * ys + y) by lia.
  fold bd. rewrite Hpos.
  set (pos := offset + bd * (ys * xs) * i + bd * e) in *.
  destruct (Z.leb_spec 0 pos); [| lia].
  destruct (Z.leb_spec (pos + bd) (Z.of_nat (length data'))); [| lia].
  cbn [andb]. f_equal. unfold elem_at. fold bd.
  destruct (decide (y = 0 /\ x < 4)) as [[Hy0 Hx4] | Hnc].
  - subst y. destruct (Z.ltb_spec x 4); [| lia]. cbn [Z.eqb andb].
    assert (0 <= bd * x) as Hbx by (apply Z.mul_nonneg_nonneg; lia).
    assert (bd * x + bd <= 4 * bd) as Hx4'.
    { replace (bd * x + bd) with (bd * (x + 1)) by lia.
      replace (4 * bd) with (bd * 4) by lia.
      apply Z.mul_le_mono_nonneg_l; lia. }
    f_equal. apply peek_ext; [lia | rewrite Hcorner; lia |].
    intros m Hm.
    rewrite (Hin i (Z.to_nat pos + m)%nat Hi) by lia.
    rewrite bool_decide_true by (unfold pos, e; lia).
    f_equal. rewrite (Hcorner i). unfold pos, e. lia.
  - assert (4 <= e) as He4 by (apply frame_elem_after_corner; lia).
    assert (4 * bd <= bd * e) as He4'.
    { replace (4 * bd) with (bd * 4) by lia.
      apply Z.mul_le_mono_nonneg_l; lia. }
    assert ((y =? 0) && (x <? 4) = false) as ->.
    { destruct (Z.eqb_spec y 0); [| reflexivity].
      destruct (Z.ltb_spec x 4); [lia | reflexivity]. }
    f_equal. apply peek_ext; [lia | lia |].
    intros m Hm.
    rewrite (Hin i (Z.to_nat pos + m)%nat Hi) by lia.
    rewrite bool_decide_false by lia. reflexivity.
Qed.

(** ** Requests beyond the mapping *)

(** The loop of [layer] over [k] frames fails when the last corner read
    reaches past the end of the mapping: the first read that does so is
    refused. *)
Lemma layer_loop_too_small (dt : np_dtype) (d0 d1 d2 off : Z) (k : nat) :
  1 <= d1 -> 4 <= d2 ->
  forall (i0 idx : Z) (s : DCIMGFile) (data : bytes),
    mm s = Some (Mapped data) -> dtype s = Some dt ->
    byte_depth s = Ok (itemsize dt) ->
    (1 <= k)%nat ->
    0 <= i0 -> i0 + Z.of_nat k <= d0 -> 0 <= idx ->
    idx + 4 * itemsize dt * Z.of_nat k < 2 ^ 63 ->
    Z.of_nat (length data) < idx + 4 * itemsize dt * Z.of_nat k ->
    exists s',
      layer_loop (View [d0; d1; d2] dt off) k i0 idx s
      = (Raise (TypeError "buffer is too small for requested array"), s').
Proof.
  intros Hd1 Hd2. pose proof (itemsize_range dt) as Hbd.
  induction k as [| k IH];
    intros i0 idx s data Hmm Hdt Hdepth Hk1 Hi0 Hk Hidx Hmax Hlen.
  - lia.
  - assert (4 * itemsize dt * Z.of_nat (S k)
            = 4 * itemsize dt + 4 * itemsize dt * Z.of_nat k) as HSk by lia.
    assert (0 <= 4 * itemsize dt * Z.of_nat k) as Hk0
      by (apply Z.mul_nonneg_nonneg; lia).
    cbn [layer_loop]. unfold bind at 1, read at 1.
    destruct (Z.lt_ge_cases (Z.of_nat (length data)) (idx + 4 * itemsize dt))
      as [Hnow | Hlater].
    + exists s.
      rewrite (ndarray_new_too_small s data dt [1; 1; 4] idx Hmm Hdt)
        by (change (prod_list [1; 1; 4]) with 4; lia).
      reflexivity.
    + rewrite (ndarray_new_corner s data dt idx Hmm Hdt) by lia.
      unfold bind at 1.
      rewrite (setitem_corner_ok s data dt dt d0 d1 d2 off i0 idx Hmm) by lia.
      set (data1 := poke data _ _).
      set (s1 := set_mm (Some (Mapped data1)) s).
      assert (byte_depth s1 = Ok (itemsize dt)) as Hdepth1 by exact Hdepth.
      unfold bind at 1, read at 1. rewrite Hdepth1.
      rewrite (i64_id (4 * itemsize dt)) by lia. rewrite i64_id by lia.
      assert (length data1 = length data) as Hl1 by apply length_poke.
      destruct k as [| k'].
      { change (Z.of_nat 0) with 0 in *. lia. }
      apply (IH (i0 + 1) (idx + 4 * itemsize dt) s1 data1);
        try reflexivity; try assumption; try lia.
Qed.


(** C4, the claim as stated fails: on the sample file cut at byte 622, the
    table of the timestamps (at 612, 24 bytes) reaches past the end of the
    mapping, and [timestamps] returns values all the same: the second is
    decoded from the two bytes that remain of its record, the third from
    none. *)
Lemma timestamps_truncated_table_succeeds :
  fst (opened truncated_file) = Ok tt
  /\ timestamp_offset truncated = Ok 612
  /\ Z.of_nat (length truncated_file) < 612 + 8 * 3
  /\ timestamps truncated = Ok [10.5%float; 10%float; 0%float].
Proof. repeat split; vm_compute; reflexivity. Qed.

(** A request for a layer whose pixel view or whose corner reads need
    bytes past the end of the mapping is refused. *)
Lemma layer_too_small (s : DCIMGFile) (data : bytes) (fh : file_hdr)
    (sh : sess_hdr) (dt : np_dtype) (index fpl : Z) (target : option np_dtype) :
  open_handle s data fh sh dt ->
  let bd := itemsize dt in
  let ys := sh_ysize sh in
  let xs := sh_xsize sh in
  let n := sh_nfrms sh in
  let offset := 232 + sh_bytes_per_img sh * fpl * index in
  let corner_end :=
    footer_offset fh sh + 272 + n * (4 + 8) + 4 * bd * (index * fpl + fpl) in
  0 <= index -> 1 <= fpl -> 1 <= ys -> 4 <= xs ->
  sh_bytes_per_img sh * fpl < 2 ^ 63 -> 4 * bd * index < 2 ^ 63 ->
  offset + bd * (fpl * ys * xs) < 2 ^ 63 -> corner_end < 2 ^ 63 ->
  Z.of_nat (length data) < offset + bd * (fpl * ys * xs)
  \/ Z.of_nat (length data) < corner_end ->
  exists s',
    layer index fpl target s
    = (Raise (TypeError "buffer is too small for requested array"), s').
Proof.
  intros Hopen bd ys xs n offset corner_end
    Hindex Hfpl Hys Hxs Hm1 Hm2 Hview Hcorner Hout.
  destruct (open_handle_props s data fh sh dt Hopen)
    as (Hbpi & Hysize & Hxsize & Hn & Hdepth & Hsfo).
  destruct Hopen as (Hmm & _ & _ & Hdt & _ & _ & Hnr & Hxr & Hyr & Hbr & _).
  pose proof (itemsize_range dt) as Hbd. fold bd in Hbd.
  pose proof (footer_offset_range fh sh) as Hfo.
  fold n in Hnr, Hn.
  assert (0 <= sh_bytes_per_img sh * fpl) as Hp1 by (apply Z.mul_nonneg_nonneg; lia).
  assert (0 <= sh_bytes_per_img sh * fpl * index) as Hp2
    by (apply Z.mul_nonneg_nonneg; lia).
  assert (0 <= fpl * ys * xs) as Hp3
    by (repeat apply Z.mul_nonneg_nonneg; unfold ys, xs; lia).
  assert (0 <= bd * (fpl * ys * xs)) as Hp4 by (apply Z.mul_nonneg_nonneg; lia).
  assert (0 <= 4 * bd * index) as Hp5 by (apply Z.mul_nonneg_nonneg; lia).
  assert (0 <= 4 * bd * index * fpl) as Hp6 by (apply Z.mul_nonneg_nonneg; lia).
  assert (0 <= 4 * bd * fpl) as Hp7 by (apply Z.mul_nonneg_nonneg; lia).
  assert (corner_end
          = footer_offset fh sh + 272 + n * (4 + 8) + 4 * bd * index * fpl
            + 4 * bd * fpl) as Hce by (unfold corner_end; lia).
  unfold layer.
  unfold bind at 1, read at 1. rewrite Hbpi.
  unfold bind at 1, read at 1. rewrite Hysize.
  unfold bind at 1, read at 1. rewrite Hxsize.
  rewrite (i64_id (sh_bytes_per_img sh * fpl)) by lia.
  rewrite (i64_id (sh_bytes_per_img sh * fpl * index)) by (unfold offset in *; lia).
  rewrite (i64_id (232 + _)) by (unfold offset in *; lia).
  fold offset. fold ys. fold xs.
  unfold bind at 1, read at 1.
  destruct (Z.lt_ge_cases (Z.of_nat (length data)) (offset + bd * (fpl * ys * xs)))
    as [Hsmall | Hfits].
  - exists s.
    rewrite (ndarray_new_too_small s data dt [fpl; ys; xs] offset Hmm Hdt);
      [reflexivity |].
    assert (prod_list [fpl; ys; xs] = fpl * ys * xs) as -> by (cbn; lia).
    exact Hsmall.
  - assert (Z.of_nat (length data) < corner_end) as Hfar by lia.
    rewrite (ndarray_new_view s data dt fpl ys xs offset Hmm Hdt)
      by (fold bd; unfold ys, xs, offset in *; lia).
    unfold bind at 1, read at 1. rewrite Hsfo.
    unfold bind at 1, read at 1. rewrite Hn.
    unfold bind at 1, read at 1. rewrite Hdepth. fold bd.
    rewrite (i64_id (n * (4 + 8))) by lia.
    rewrite (i64_id (footer_offset fh sh + 272 + _)) by lia.
    rewrite (i64_id (4 * bd)) by lia.
    rewrite (i64_id (4 * bd * index)) by lia.
    rewrite (i64_id (4 * bd * index * fpl)) by lia.
    rewrite i64_id by lia.
    destruct (layer_loop_too_small dt fpl ys xs offset (Z.to_nat fpl) Hys Hxs 0
                (footer_offset fh sh + 272 + n * (4 + 8) + 4 * bd * index * fpl)
                s data Hmm Hdt Hdepth) as (s' & Hrun);
      try (fold bd; rewrite ?Z2Nat.id by lia; lia).
    exists s'. unfold bind at 1. rewrite Hrun. reflexivity.
Qed.

(** C4, amended: on an open handle, a request for a layer (index not
    negative, at least one frame, frames of at least one row and four
    columns, offsets within 64 bits) whose pixel view or whose corner reads
    need bytes past the end of the mapping fails with the [TypeError] of a
    buffer that is too small; [timestamps] does not fail when its table
    reaches past the end of the mapping: each field is decoded from the bytes
    of the mapping that its slice still holds, and a record that lies
    wholly past the end gives zero. *)
Theorem out_of_range_requests (s : DCIMGFile) (data : bytes) (fh : file_hdr)
    (sh : sess_hdr) (dt : np_dtype) :
  open_handle s data fh sh dt ->
  (forall (index fpl : Z) (target : option np_dtype),
     let bd := itemsize dt in
     let ys := sh_ysize sh in
     let xs := sh_xsize sh in
     let offset := 232 + sh_bytes_per_img sh * fpl * index in
     let corner_end :=
       footer_offset fh sh + 272 + sh_nfrms sh * (4 + 8)
       + 4 * bd * (index * fpl + fpl) in
     0 <= index -> 1 <= fpl -> 1 <= ys -> 4 <= xs ->
     sh_bytes_per_img sh * fpl < 2 ^ 63 -> 4 * bd * index < 2 ^ 63 ->
     offset + bd * (fpl * ys * xs) < 2 ^ 63 -> corner_end < 2 ^ 63 ->
     Z.of_nat (length data) < offset + bd * (fpl * ys * xs)
     \/ Z.of_nat (length data) < corner_end ->
     exists s',
       layer index fpl target s
       = (Raise (TypeError "buffer is too small for requested array"), s'))
  /\ exists off ts,
      timestamp_offset s = Ok off
      /\ timestamps s = Ok ts
      /\ length ts = Z.to_nat (sh_nfrms sh)
      /\ forall i, (i < Z.to_nat (sh_nfrms sh))%nat ->
           ts !! i = Some (timestamp_at data (off + 8 * Z.of_nat i))
           /\ (Z.of_nat (length data) <= off + 8 * Z.of_nat i ->
               ts !! i = Some (float_of_int 0)).
Proof.
  intros Hopen. split.
  - intros index fpl target.
    exact (layer_too_small s data fh sh dt index fpl target Hopen).
  - destruct (timestamp_offset_handle s data fh sh dt Hopen) as (off & Hoff & _).
    destruct (open_handle_props s data fh sh dt Hopen) as (_ & _ & _ & Hn & _).
    destruct Hopen as (Hmm & _).
    destruct (timestamps_mapped s data _ off Hmm Hn Hoff) as (ts & Hrun & Hl & Hts).
    exists off, ts. split; [exact Hoff |]. split; [exact Hrun |]. split; [exact Hl |].
    intros i Hi. split; [apply Hts; exact Hi |].
    intros Hbeyond. rewrite (Hts i Hi), timestamp_at_beyond by exact Hbeyond.
    reflexivity.
Qed.

(** ** The sample files *)

Lemma sample_open_handle : open_handle sample sample_file sample_fh sample_sh uint16.
Proof. unfold open_handle. repeat split; by_eval. Qed.

Lemma wide_open_handle : open_handle wide wide_file wide_fh wide_sh uint8.
Proof. unfold open_handle. repeat split; by_eval. Qed.

(** ** The decoding of a record of the table *)

(** C2: on an open handle whose table of timestamps lies within the
    mapping, [timestamps] returns, for frame [i], the value decoded from the
    record of eight bytes at [timestamp_offset + 8 * i]: its first four
    bytes are the whole part and the next four the fraction, both unsigned
    and little-endian.  A fraction of zero gives exactly the whole part; any
    other fraction gives the whole part plus the fraction times ten to the
    power minus [k + 1], where [k] is the floor of the logarithm in base ten
    of the fraction ([10^k <= fraction < 10^(k+1)]), in binary64 arithmetic.
    A record with whole part 10 and fraction 5 decodes to 10.5, one with 10
    and 500 to 10.5 as well, and one with 7 and 0 to 7. *)
Theorem timestamps_record_decode (s : DCIMGFile) (data : bytes) (fh : file_hdr)
    (sh : sess_hdr) (dt : np_dtype) (table : Z) (i : nat) :
  open_handle s data fh sh dt ->
  timestamp_offset s = Ok table ->
  (i < Z.to_nat (sh_nfrms sh))%nat ->
  let p := table + 8 * Z.of_nat i in
  let whole := from_bytes_little (peek data p 4) in
  let fraction := from_bytes_little (peek data (p + 4) 4) in
  0 <= table -> p + 8 <= Z.of_nat (length data) ->
  exists ts,
    timestamps s = Ok ts
    /\ 0 <= whole < 2 ^ 32
    /\ 0 <= fraction < 2 ^ 32
    /\ (fraction = 0 -> ts !! i = Some (float_of_int whole))
    /\ (fraction <> 0 ->
        exists k,
          0 <= k /\ 10 ^ k <= fraction < 10 ^ (k + 1)
          /\ ts !! i
             = Some (PrimFloat.add (float_of_int whole)
                       (PrimFloat.mul (float_of_int fraction)
                          (PrimFloat.div (float_of_int 1)
                             (float_of_int (10 ^ (k + 1)))))))
    /\ (whole = 10 -> fraction = 5 -> ts !! i = Some 10.5%float)
    /\ (whole = 10 -> fraction = 500 -> ts !! i = Some 10.5%float)
    /\ (whole = 7 -> fraction = 0 -> ts !! i = Some 7%float).
Proof.
  intros Hopen Htable Hi p whole fraction Htab Hin.
  destruct (open_handle_props s data fh sh dt Hopen) as (_ & _ & _ & Hn & _ & _).
  destruct Hopen as (Hmm & _).
  destruct (timestamps_mapped s data (sh_nfrms sh) table Hmm Hn Htable)
    as (ts & Hts & _ & Hget).
  specialize (Hget i Hi). fold p in Hget.
  rewrite timestamp_at_in_range in Hget by lia.
  fold whole fraction in Hget.
  assert (forall q, 0 <= q -> q + 4 <= Z.of_nat (length data) ->
            0 <= from_bytes_little (peek data q 4) < 2 ^ 32) as Hu32.
  { intros q Hq Hq4.
    pose proof (from_bytes_little_bound (peek data q 4)) as Hb.
    assert (length (peek data q 4) = 4%nat) as Hl.
    { unfold peek. rewrite length_take, length_drop. lia. }
    rewrite Hl in Hb. exact Hb. }
  pose proof (Hu32 p ltac:(lia) ltac:(lia)) as Hw.
  pose proof (Hu32 (p + 4) ltac:(lia) ltac:(lia)) as Hf.
  fold whole in Hw. fold fraction in Hf.
  exists ts. split; [exact Hts |]. split; [exact Hw |]. split; [exact Hf |].
  rewrite Hget. unfold timestamp_value.
  split; [| split; [| repeat split]].
  - intros ->. reflexivity.
  - intros Hne. destruct (Z.eqb_spec fraction 0) as [H0 | _]; [contradiction |].
    cbn [negb].
    destruct (floor_log10_spec fraction ltac:(lia)) as (Hk & Hlo & Hhi).
    exists (floor_log10 fraction).
    split; [exact Hk |]. split; [split; assumption |]. reflexivity.
  - intros -> ->. vm_compute. reflexivity.
  - intros -> ->. vm_compute. reflexivity.
  - intros -> ->. vm_compute. reflexivity.
Qed.

Lemma timestamps_record_decode_witness :
  exists ts,
    timestamps sample = Ok ts
    /\ ts !! 0%nat = Some 10.5%float
    /\ ts !! 1%nat = Some 10.5%float
    /\ ts !! 2%nat = Some 7%float.
Proof.
  pose proof (timestamps_record_decode sample sample_file sample_fh sample_sh uint16
                612 0 sample_open_handle) as H0.
  pose proof (timestamps_record_decode sample sample_file sample_fh sample_sh uint16
                612 1 sample_open_handle) as H1.
  pose proof (timestamps_record_decode sample sample_file sample_fh sample_sh uint16
                612 2 sample_open_handle) as H2.
  cbv zeta in H0, H1, H2.
  destruct (H0 ltac:(by_eval) ltac:(vm_compute; lia) ltac:(by_eval) ltac:(by_eval))
    as (ts & Hts & _ & _ & _ & _ & Ha & _).
  destruct (H1 ltac:(by_eval) ltac:(vm_compute; lia) ltac:(by_eval) ltac:(by_eval))
    as (ts1 & Hts1 & _ & _ & _ & _ & _ & Hb & _).
  destruct (H2 ltac:(by_eval) ltac:(vm_compute; lia) ltac:(by_eval) ltac:(by_eval))
    as (ts2 & Hts2 & _ & _ & _ & _ & _ & _ & Hc).
  rewrite Hts in Hts1, Hts2.
  injection Hts1 as <-. injection Hts2 as <-.
  exists ts. split; [exact Hts |].
  split; [apply Ha; by_eval |].
  split; [apply Hb; by_eval | apply Hc; by_eval].
Defined.

(** C1, the claim as stated fails: on the sample file, of three frames, the
    layer of index 3 with one frame per layer is refused, no view is
    returned. *)
Lemma layer_beyond_frames_raises :
  fst (opened sample_file) = Ok tt
  /\ fst (layer 3 1 None sample)
     = Raise (TypeError "buffer is too small for requested array").
Proof. split; vm_compute; reflexivity. Qed.

(** Frames of fewer than four columns cannot take the four corner pixels:
    the assignment is refused. *)
Lemma layer_narrow_frames_raises :
  fst (opened narrow_file) = Ok tt
  /\ fst (layer 0 1 None narrow)
     = Raise (ValueError "could not broadcast input array from shape (1,1,4)").
Proof. split; vm_compute; reflexivity. Qed.

Lemma layer_view_restored_witness :
  exists s',
    layer 1 1 None sample = (Ok (View [1; 4; 4] uint16 264), s')
    /\ arr_get s' (View [1; 4; 4] uint16 264) [0; 0; 2] = Some 1012
    /\ arr_get s' (View [1; 4; 4] uint16 264) [0; 1; 2] = Some 106.
Proof.
  pose proof (layer_view_restored sample sample_file sample_fh sample_sh uint16 1 1
                sample_open_handle) as H.
  cbv zeta in H.
  specialize (H ltac:(by_eval) ltac:(by_eval) ltac:(by_eval) ltac:(by_eval)
                ltac:(by_eval) ltac:(by_eval) ltac:(by_eval) ltac:(by_eval)
                ltac:(by_eval)).
  destruct H as (s' & Hrun & Hget).
  assert (View [1; sh_ysize sample_sh; sh_xsize sample_sh] uint16
            (232 + sh_bytes_per_img sample_sh * 1 * 1)
          = View [1; 4; 4] uint16 264) as HV by by_eval.
  rewrite HV in Hrun, Hget.
  exists s'. split; [exact Hrun |].
  pose proof (Hget 0 0 2 ltac:(lia) ltac:(by_eval) ltac:(by_eval)) as E1.
  pose proof (Hget 0 1 2 ltac:(lia) ltac:(by_eval) ltac:(by_eval)) as E2.
  split.
  - rewrite E1. by_eval.
  - rewrite E2. by_eval.
Defined.

Lemma out_of_range_requests_witness :
  (exists s',
     layer 3 1 None sample
     = (Raise (TypeError "buffer is too small for requested array"), s'))
  /\ exists ts, timestamps sample = Ok ts /\ length ts = 3%nat.
Proof.
  pose proof (out_of_range_requests sample sample_file sample_fh sample_sh uint16
                sample_open_handle) as [Hlayer (off & ts & _ & Hts & Hlen & _)].
  split.
  - pose proof (Hlayer 3 1 None) as H. cbv zeta in H.
    apply H; try by_eval. right. by_eval.
  - exists ts. split; [exact Hts | exact Hlen].
Defined.


(** ** Shapes *)

Lemma read_Ok_inv {A} (p : DCIMGFile -> result A) (s s1 : DCIMGFile) (a : A) :
  read p s = (Ok a, s1) -> p s = Ok a /\ s1 = s.
Proof. unfold read. intros [= H <-]. split; [exact H | reflexivity]. Qed.

Lemma ndarray_new_Ok_inv (shp : list Z) (offset : Z) (s : DCIMGFile) (a : ndarray) :
  ndarray_new shp offset s = Ok a -> exists dt, a = View shp dt offset.
Proof.
  unfold ndarray_new.
  repeat (destruct_innermost; try (intros H; discriminate H)).
  intros [= <-]. eexists. reflexivity.
Qed.

(** The shape of the array that [layer] returns. *)
Lemma layer_Ok_shape (s s' : DCIMGFile) (index fpl : Z) (target : option np_dtype)
    (a : ndarray) (ys xs : Z) :
  ysize s = Ok ys -> xsize s = Ok xs ->
  layer index fpl target s = (Ok a, s') ->
  arr_shape a = [fpl; ys; xs].
Proof.
  intros Hys Hxs Hrun. unfold layer in Hrun.
  apply bind_Ok_inv in Hrun. destruct Hrun as (bpi & s1 & H1 & Hrun).
  apply read_Ok_inv in H1. destruct H1 as [_ ->].
  apply bind_Ok_inv in Hrun. destruct Hrun as (ys' & s1 & H1 & Hrun).
  apply read_Ok_inv in H1. destruct H1 as [H1 ->].
  rewrite Hys in H1. injection H1 as <-.
  apply bind_Ok_inv in Hrun. destruct Hrun as (xs' & s1 & H1 & Hrun).
  apply read_Ok_inv in H1. destruct H1 as [H1 ->].
  rewrite Hxs in H1. injection H1 as <-.
  apply bind_Ok_inv in Hrun. destruct Hrun as (a0 & s1 & H1 & Hrun).
  apply read_Ok_inv in H1. destruct H1 as [H1 ->].
  apply ndarray_new_Ok_inv in H1. destruct H1 as (dt & ->).
  apply bind_Ok_inv in Hrun. destruct Hrun as (sfo & s1 & H1 & Hrun).
  apply read_Ok_inv in H1. destruct H1 as [_ ->].
  apply bind_Ok_inv in Hrun. destruct Hrun as (n & s1 & H1 & Hrun).
  apply read_Ok_inv in H1. destruct H1 as [_ ->].
  apply bind_Ok_inv in Hrun. destruct Hrun as (bd & s1 & H1 & Hrun).
  apply read_Ok_inv in H1. destruct H1 as [_ ->].
  apply bind_Ok_inv in Hrun. destruct Hrun as ([] & s1 & _ & Hrun).
  destruct target as [target |].
  - apply read_Ok_inv in Hrun. destruct Hrun as [[= <-] _]. reflexivity.
  - unfold ret in Hrun. injection Hrun as <- _. reflexivity.
Qed.

(** C10: on an open handle, [shape] is the triple of the number of frames,
    [xsize] and [ysize], while every array that [layer] returns has the
    shape of the number of frames per layer, [ysize] and [xsize]: the two
    last axes come in the opposite order. *)
Theorem shape_axes_transposed (s : DCIMGFile) (data : bytes) (fh : file_hdr)
    (sh : sess_hdr) (dt : np_dtype) :
  open_handle s data fh sh dt ->
  shape s = Ok (sh_nfrms sh, sh_xsize sh, sh_ysize sh)
  /\ forall index fpl target a s',
       layer index fpl target s = (Ok a, s') ->
       arr_shape a = [fpl; sh_ysize sh; sh_xsize sh].
Proof.
  intros Hopen.
  destruct (open_handle_props s data fh sh dt Hopen)
    as (_ & Hysize & Hxsize & Hn & _).
  split.
  - unfold shape. rewrite Hn, Hxsize, Hysize. reflexivity.
  - intros index fpl target a s' Hrun.
    exact (layer_Ok_shape s s' index fpl target a _ _ Hysize Hxsize Hrun).
Qed.

Lemma shape_axes_transposed_witness :
  shape wide = Ok (1, 8, 2)
  /\ exists a, fst (layer 0 1 None wide) = Ok a /\ arr_shape a = [1; 2; 8].
Proof.
  pose proof (shape_axes_transposed wide wide_file wide_fh wide_sh uint8
                wide_open_handle) as [Hshape Hlayer].
  split.
  - rewrite Hshape. by_eval.
  - exists (View [1; 2; 8] uint8 232). split; [by_eval |].
    rewrite (Hlayer 0 1 None (View [1; 2; 8] uint8 232) (snd (layer 0 1 None wide)))
      by by_eval.
    by_eval.
Defined.

(** ** [frame] *)

(** C7, on the code: [frame] calls [layer] without a target type and hands
    its [dtype] argument to [squeeze] as the axis.  With a target type the
    call fails with a [TypeError] where [layer] with one frame per layer
    and that type returns an array; without one, every axis of size one is
    removed, not the first only. *)
Theorem frame_passes_dtype_as_axis (s s' : DCIMGFile) (index : Z) (a : ndarray) :
  layer index 1 None s = (Ok a, s') ->
  (forall d : np_dtype,
     frame index (Some d) s
     = (Raise (TypeError "an integer is required for the axis"), s'))
  /\ exists a',
      frame index None s = (Ok a', s')
      /\ arr_shape a' = filter (fun d => d <> 1) (arr_shape a).
Proof.
  intros Hrun. split.
  - intros d. unfold frame. rewrite (bind_Ok _ _ _ _ _ Hrun). reflexivity.
  - unfold frame. rewrite (bind_Ok _ _ _ _ _ Hrun).
    unfold lift, squeeze. eexists. split; [reflexivity |].
    destruct a; reflexivity.
Qed.

Lemma frame_passes_dtype_as_axis_witness :
  fst (frame 0 (Some uint16) sample)
  = Raise (TypeError "an integer is required for the axis")
  /\ exists a', fst (frame 0 None row) = Ok a' /\ arr_shape a' = [4].
Proof.
  split.
  - pose proof (frame_passes_dtype_as_axis sample (snd (layer 0 1 None sample)) 0
                  (View [1; 4; 4] uint16 232) ltac:(by_eval)) as [H _].
    rewrite H. reflexivity.
  - pose proof (frame_passes_dtype_as_axis row (snd (layer 0 1 None row)) 0
                  (View [1; 1; 4] uint8 232) ltac:(by_eval)) as [_ (a' & H & Hshape)].
    exists a'. rewrite H. split; [reflexivity |].
    rewrite Hshape. by_eval.
Defined.

(** * Further properties *)

(** ** Which files [open] accepts *)

Lemma read_file_header_eval (s : DCIMGFile) (data : bytes) :
  mm s = Some (Mapped data) ->
  read_file_header s
  = let s0 := set_file_header [decode_file_hdr (zeros_bytes 72)] s in
    match fromstring decode_file_hdr 72 (py_slice data 0 72) with
    | Ok fh =>
        match array_truth (file_format_matches fh) with
        | Ok true => (Ok tt, set_file_header fh s0)
        | Ok false => (Raise (RuntimeError "Invalid DCIMG file"), set_file_header fh s0)
        | Raise e => (Raise e, set_file_header fh s0)
        | Beyond => (Beyond, set_file_header fh s0)
        end
    | Raise e => (Raise e, s0)
    | Beyond => (Beyond, s0)
    end.
Proof.
  intros Hmm. unfold read_file_header, bind, update, read, lift, mm_slice, raise, ret.
  cbn [mm set_file_header file_header]. rewrite Hmm.
  change FILE_HDR_nbytes with 72.
  destruct (fromstring decode_file_hdr 72 (py_slice data 0 72)) as [fh | e |];
    try reflexivity.
  cbn [rbind]. destruct (array_truth (file_format_matches fh)) as [[] | e |];
    reflexivity.
Qed.

Lemma read_sess_header_eval (s : DCIMGFile) (data : bytes) (fh : file_hdr) fhs :
  mm s = Some (Mapped data) ->
  file_header s = Some (fh :: fhs) ->
  read_sess_header s
  = let s0 := set_sess_header [decode_sess_hdr (zeros_bytes 80)] s in
    match fromstring decode_sess_hdr 80
            (py_slice data (fh_header_size fh) (fh_header_size fh + 80)) with
    | Ok sh => (Ok tt, set_sess_header sh s0)
    | Raise e => (Raise e, s0)
    | Beyond => (Beyond, s0)
    end.
Proof.
  intros Hmm Hfh. unfold read_sess_header, bind, update, read, lift, mm_slice,
    header_size, first_elem.
  cbn [mm set_sess_header file_header]. rewrite Hmm, Hfh.
  change SESS_HDR_nbytes with 80.
  destruct (fromstring decode_sess_hdr 80 _) as [sh | e |]; reflexivity.
Qed.

Lemma fromstring_whole {R} (decode : bytes -> R) (size : Z) (raw : bytes) :
  0 < size -> Z.of_nat (length raw) = size ->
  fromstring decode size raw = Ok [decode raw].
Proof.
  intros Hsize Hlen. unfold fromstring. rewrite Hlen, Z.mod_same by lia.
  cbn [Z.eqb]. rewrite Z.div_same by lia. change (Z.to_nat 1) with 1%nat.
  cbn [records]. rewrite take_ge by lia. reflexivity.
Qed.

Lemma fromstring_ragged {R} (decode : bytes -> R) (size : Z) (raw : bytes) :
  0 < Z.of_nat (length raw) < size ->
  fromstring decode size raw
  = Raise (ValueError "string size must be a multiple of element size").
Proof.
  intros Hlen. unfold fromstring. rewrite Z.mod_small by lia.
  destruct (Z.eqb_spec (Z.of_nat (length raw)) 0); [lia | reflexivity].
Qed.

(** [open] on a file that passes the checks. *)
Lemma open_accepted (content : bytes) (s0 : DCIMGFile) :
  open_accepts content ->
  open_ content s0 = (Ok tt, opened_state content s0).
Proof.
  intros (Hlen & Hmagic & Hsess & Hbd & Hrow & Himg).
  set (fh := decode_file_hdr (take 72 content)) in *.
  set (sh := decode_sess_hdr (peek content (fh_header_size fh) 80)) in *.
  assert (take 5 content = b_ "DCIMG") as H5.
  { replace (take 5 content) with (take 5 (take 8 content))
      by (rewrite take_take; reflexivity).
    rewrite Hmagic. reflexivity. }
  assert (0 <= fh_header_size fh < 2 ^ 32) as Hhs by (apply (ufield_bound _ 40 4)).
  rewrite open_split_file_header.
  pose proof (open_file_header_eval content s0 Hlen H5) as Hfile.
  rewrite Hmagic in Hfile.
  replace (S_eq (b_ "DCIMG" ++ zeros_bytes 3) (b_ "DCIMG")) with true in Hfile
    by (vm_compute; reflexivity).
  cbv zeta in Hfile. rewrite (bind_Ok _ _ _ _ _ Hfile).
  set (s1 := set_file_header [decode_file_hdr (take 72 content)] _).
  assert (read_sess_header s1
          = (Ok tt, set_sess_header [sh]
                      (set_sess_header [decode_sess_hdr (zeros_bytes 80)] s1)))
    as Hread.
  { rewrite (read_sess_header_eval s1 content fh []) by reflexivity.
    cbv zeta. fold fh. rewrite py_slice_in_range by lia.
    replace (Z.to_nat (fh_header_size fh + 80 - fh_header_size fh)) with 80%nat by lia.
    rewrite fromstring_whole; [reflexivity | lia |].
    rewrite length_take, length_drop. lia. }
  rewrite (bind_Ok _ _ _ _ _ Hread).
  set (s2 := set_sess_header [sh] _).
  assert (set_pixel_dtype s2
          = (Ok tt, set_dtype (if sh_byte_depth sh =? 1 then uint8 else uint16) s2))
    as Hset.
  { rewrite (set_pixel_dtype_eval s2 (sh_byte_depth sh) eq_refl).
    destruct Hbd as [-> | ->]; reflexivity. }
  rewrite (bind_Ok _ _ _ _ _ Hset).
  rewrite (check_sizes_eval _ (sh_bytes_per_row sh) (sh_byte_depth sh)
             (sh_ysize sh) (sh_bytes_per_img sh)) by reflexivity.
  rewrite <- Hrow, <- Himg, !Z.eqb_refl. reflexivity.
Qed.

(** What a successful [open] tells of the bytes of the file. *)
Lemma open_Ok_accepts (content : bytes) (s0 s : DCIMGFile) :
  open_ content s0 = (Ok tt, s) -> open_accepts content.
Proof.
  intros Hopen.
  destruct (decide (content = [])) as [-> | Hc];
    [rewrite open_empty in Hopen; discriminate Hopen |].
  destruct (decide (py_slice content 0 5 = b_ "DCIMG")) as [Hmagic | Hne].
  2: { rewrite (open_closed_mapping content s0 Hc Hne) in Hopen. discriminate Hopen. }
  rewrite open_split_file_header in Hopen.
  apply bind_Ok_inv in Hopen. destruct Hopen as ([] & s1 & Hfile & Hopen).
  apply bind_Ok_inv in Hopen. destruct Hopen as ([] & s2 & Hsess & Hopen).
  apply bind_Ok_inv in Hopen. destruct Hopen as ([] & s3 & Hdtype & Hsizes).
  rewrite (open_file_header_nonempty content Hc) in Hfile.
  unfold bytes_eqb in Hfile.
  rewrite bool_decide_true in Hfile by exact Hmagic.
  unfold close, update, bind in Hfile. cbn [negb] in Hfile.
  rewrite (read_file_header_eval _ content) in Hfile by reflexivity.
  cbv zeta in Hfile.
  destruct (fromstring decode_file_hdr 72 (py_slice content 0 72)) as [fhs | e |] eqn:Hfs;
    try discriminate.
  apply fromstring_short in Hfs; [| lia | rewrite py_slice_length by lia; lia].
  destruct Hfs as [[_ ->] | [Hraw ->]]; [discriminate |].
  rewrite py_slice_length in Hraw by lia.
  assert (72 <= length content)%nat as Hlen by lia.
  rewrite py_slice_in_range in Hfile by lia.
  change (Z.to_nat (72 - 0)) with 72%nat in Hfile.
  change (Z.to_nat 0) with 0%nat in Hfile. rewrite drop_0 in Hfile.
  set (fh := decode_file_hdr (take 72 content)) in *.
  cbn [file_format_matches map array_truth] in Hfile.
  assert (fh_file_format fh = take 8 content) as Hff.
  { unfold fh. cbn [decode_file_hdr fh_file_format]. unfold field.
    rewrite drop_0, take_take. reflexivity. }
  rewrite Hff in Hfile.
  assert (take 5 content = b_ "DCIMG") as H5.
  { rewrite <- Hmagic, py_slice_in_range by lia. reflexivity. }
  assert (take 8 content = b_ "DCIMG" ++ zeros_bytes 3) as H8.
  { rewrite (take_8_magic content) by (lia || exact H5).
    rewrite (take_8_magic content) in Hfile by (lia || exact H5).
    rewrite S_eq_magic in Hfile.
    assert (length (take 3 (drop 5 content)) = 3%nat) as Hpad
      by (rewrite length_take, length_drop; lia).
    rewrite Hpad in Hfile.
    destruct (decide (take 3 (drop 5 content) = zeros_bytes 3)) as [-> | Hpadne];
      [reflexivity |].
    rewrite bool_decide_false in Hfile by exact Hpadne. discriminate. }
  rewrite H8 in Hfile.
  replace (S_eq (b_ "DCIMG" ++ zeros_bytes 3) (b_ "DCIMG")) with true in Hfile
    by (vm_compute; reflexivity).
  injection Hfile as <-.
  assert (0 <= fh_header_size fh < 2 ^ 32) as Hhs by (apply (ufield_bound _ 40 4)).
  rewrite (read_sess_header_eval _ content fh []) in Hsess by reflexivity.
  cbv zeta in Hsess.
  set (raw := py_slice content (fh_header_size fh) (fh_header_size fh + 80)) in *.
  destruct (fromstring decode_sess_hdr 80 raw) as [shs | e |] eqn:Hfs; try discriminate.
  injection Hsess as <-.
  apply fromstring_short in Hfs;
    [| lia | unfold raw; rewrite py_slice_length by lia; lia].
  destruct Hfs as [[_ ->] | [Hraw2 ->]].
  { unfold set_pixel_dtype, bind, read, byte_depth, first_elem in Hdtype.
    cbn [sess_header set_sess_header] in Hdtype. discriminate. }
  unfold raw in Hraw2. rewrite py_slice_length in Hraw2 by lia.
  assert (fh_header_size fh + 80 <= Z.of_nat (length content)) as Hin by lia.
  assert (raw = peek content (fh_header_size fh) 80) as Hpeek.
  { unfold raw, peek. rewrite py_slice_in_range by lia. do 2 f_equal. lia. }
  rewrite Hpeek in *.
  set (sh := decode_sess_hdr (peek content (fh_header_size fh) 80)) in *.
  match type of Hdtype with set_pixel_dtype ?st = _ =>
    rewrite (set_pixel_dtype_eval st (sh_byte_depth sh) eq_refl) in Hdtype
  end.
  assert (sh_byte_depth sh = 1 \/ sh_byte_depth sh = 2) as Hbd.
  { destruct (Z.eqb_spec (sh_byte_depth sh) 1); [left; assumption |].
    destruct (Z.eqb_spec (sh_byte_depth sh) 2); [right; assumption | discriminate]. }
  assert (sess_header s3 = Some [sh]) as Hs3.
  { destruct (sh_byte_depth sh =? 1); [injection Hdtype as <-; reflexivity |].
    destruct (sh_byte_depth sh =? 2); [injection Hdtype as <-; reflexivity |].
    discriminate. }
  rewrite (check_sizes_eval s3 (sh_bytes_per_row sh) (sh_byte_depth sh)
             (sh_ysize sh) (sh_bytes_per_img sh)) in Hsizes
    by (unfold bytes_per_row, byte_depth, ysize, bytes_per_img, first_elem;
        rewrite Hs3; reflexivity).
  destruct (Z.eqb_spec (sh_bytes_per_row sh) (wrap32 (sh_byte_depth sh * sh_ysize sh)))
    as [Hrow | Hrow]; [| discriminate].
  destruct (Z.eqb_spec (sh_bytes_per_img sh) (wrap32 (sh_bytes_per_row sh * sh_ysize sh)))
    as [Himg | Himg]; [| discriminate].
  unfold open_accepts. fold fh. cbv zeta. fold sh.
  repeat split; assumption.
Qed.

(** X1: [open] succeeds on the bytes of a file exactly when the file
    header is whole with the magic followed by NUL bytes, the session header
    lies within the file at the offset that the file header gives, the byte
    depth is 1 or 2 and the two sizes agree (modulo 2^32); the instance then
    holds the mapping, the two decoded headers and the pixel type, and keeps
    its file name. *)
Theorem open_Ok_iff (content : bytes) (s0 s : DCIMGFile) :
  open_ content s0 = (Ok tt, s)
  <-> open_accepts content /\ s = opened_state content s0.
Proof.
  split.
  - intros Hopen. pose proof (open_Ok_accepts content s0 s Hopen) as Hacc.
    split; [exact Hacc |].
    rewrite (open_accepted content s0 Hacc) in Hopen.
    injection Hopen as <-. reflexivity.
  - intros [Hacc ->]. exact (open_accepted content s0 Hacc).
Qed.

Lemma open_Ok_iff_witness :
  open_accepts sample_file
  /\ opened sample_file = (Ok tt, opened_state sample_file (__init__ (Some "sample.dcimg"%string))).
Proof.
  assert (open_ sample_file (__init__ (Some "sample.dcimg"%string))
          = (Ok tt, sample)) as Hopen by (vm_compute; reflexivity).
  destruct (proj1 (open_Ok_iff _ _ _) Hopen) as [Hacc Hstate].
  split; [exact Hacc |].
  unfold opened. rewrite Hopen, Hstate. reflexivity.
Defined.

(** ** Files that are too short *)

(** X2: a file of fewer than 72 bytes (and of one at least: an empty file
    cannot be mapped) is never reported as an invalid DCIMG file: [open]
    fails with a [ValueError], that of the closed mapping when the first
    five bytes are not the magic and that of the record size when they
    are. *)
Theorem open_short_file_raises_ValueError (content : bytes) (s0 : DCIMGFile) :
  (0 < length content < 72)%nat ->
  exists s',
    open_ content s0
    = (Raise (ValueError
                (if bool_decide (py_slice content 0 5 = b_ "DCIMG")
                 then "string size must be a multiple of element size"
                 else "mmap closed or invalid")), s').
Proof.
  intros [Hpos Hlen].
  destruct (decide (py_slice content 0 5 = b_ "DCIMG")) as [Hmagic | Hne].
  - rewrite bool_decide_true by exact Hmagic.
    assert (5 <= length content)%nat as H5.
    { assert (length (py_slice content 0 5) = 5%nat) as Hl by (rewrite Hmagic; reflexivity).
      rewrite py_slice_length in Hl by lia. lia. }
    rewrite open_split_file_header.
    rewrite open_file_header_nonempty by (intros ->; simpl in H5; lia).
    unfold bytes_eqb. rewrite bool_decide_true by exact Hmagic.
    unfold close, update. unfold bind at 2 3. cbn [negb].
    eexists. unfold bind at 1.
    rewrite (read_file_header_eval _ content) by reflexivity. cbv zeta.
    rewrite fromstring_ragged; [reflexivity |].
    rewrite py_slice_length by lia. lia.
  - rewrite bool_decide_false by exact Hne. eexists.
    apply (open_closed_mapping content s0); [| exact Hne].
    intros ->. simpl in Hpos. lia.
Qed.

Lemma open_short_file_witness :
  exists s',
    open_ short_file fresh
    = (Raise (ValueError "string size must be a multiple of element size"), s').
Proof.
  destruct (open_short_file_raises_ValueError short_file fresh ltac:(vm_compute; lia))
    as (s' & H).
  exists s'. rewrite H. by_eval.
Defined.

(** X3: when the file header is whole and its magic passes, but the offset
    it gives for the session header is at or past the end of the file,
    [open] fails with the [IndexError] of the first read of the byte depth in
    an empty header array; when the 80 bytes of the session header start
    within the file and end past it, [open] fails with the [ValueError] of
    the record size. *)
Theorem open_session_header_outside (content : bytes) (s0 : DCIMGFile) :
  (72 <= length content)%nat ->
  take 8 content = b_ "DCIMG" ++ zeros_bytes 3 ->
  let hs := fh_header_size (decode_file_hdr (take 72 content)) in
  (Z.of_nat (length content) <= hs ->
   exists s',
     open_ content s0
     = (Raise (IndexError "index 0 is out of bounds for axis 0 with size 0"), s'))
  /\ (hs < Z.of_nat (length content) < hs + 80 ->
      exists s',
        open_ content s0
        = (Raise (ValueError "string size must be a multiple of element size"), s')).
Proof.
  intros Hlen Hmagic hs.
  set (fh := decode_file_hdr (take 72 content)) in *.
  assert (take 5 content = b_ "DCIMG") as H5.
  { replace (take 5 content) with (take 5 (take 8 content))
      by (rewrite take_take; reflexivity).
    rewrite Hmagic. reflexivity. }
  assert (0 <= hs < 2 ^ 32) as Hhs by (apply (ufield_bound _ 40 4)).
  rewrite open_split_file_header.
  pose proof (open_file_header_eval content s0 Hlen H5) as Hfile.
  rewrite Hmagic in Hfile.
  replace (S_eq (b_ "DCIMG" ++ zeros_bytes 3) (b_ "DCIMG")) with true in Hfile
    by (vm_compute; reflexivity).
  cbv zeta in Hfile. rewrite (bind_Ok _ _ _ _ _ Hfile).
  set (s1 := set_file_header [decode_file_hdr (take 72 content)] _).
  pose proof (read_sess_header_eval s1 content fh [] eq_refl eq_refl) as Hread.
  cbv zeta in Hread. fold hs in Hread.
  split; intros Hout.
  - assert (py_slice content hs (hs + 80) = []) as Hempty.
    { apply length_zero_iff_nil. rewrite py_slice_length by lia. lia. }
    rewrite Hempty in Hread.
    change (fromstring decode_sess_hdr 80 []) with (Ok (@nil sess_hdr)) in Hread.
    rewrite (bind_Ok _ _ _ _ _ Hread). eexists. reflexivity.
  - rewrite fromstring_ragged in Hread
      by (rewrite py_slice_length by lia; lia).
    rewrite (bind_Raise _ _ _ _ _ Hread). eexists. reflexivity.
Qed.

Lemma open_session_header_outside_witness :
  (exists s',
     open_ far_header_file fresh
     = (Raise (IndexError "index 0 is out of bounds for axis 0 with size 0"), s'))
  /\ (exists s',
        open_ cut_header_file fresh
        = (Raise (ValueError "string size must be a multiple of element size"), s')).
Proof.
  split.
  - apply (open_session_header_outside far_header_file fresh); by_eval || (vm_compute; lia).
  - apply (open_session_header_outside cut_header_file fresh); by_eval || (vm_compute; lia).
Defined.

(** ** What the methods leave untouched *)

Lemma keeps_ret {X A} (f : DCIMGFile -> X) (a : A) : keeps f (ret a).
Proof. intros s. reflexivity. Qed.

Lemma keeps_raise {X A} (f : DCIMGFile -> X) (e : exn) : keeps f (@raise A e).
Proof. intros s. reflexivity. Qed.

Lemma keeps_read {X A} (f : DCIMGFile -> X) (p : DCIMGFile -> result A) :
  keeps f (read p).
Proof. intros s. reflexivity. Qed.

Lemma keeps_lift {X A} (f : DCIMGFile -> X) (r : result A) : keeps f (lift r).
Proof. intros s. reflexivity. Qed.

Lemma keeps_update {X} (f : DCIMGFile -> X) (g : DCIMGFile -> DCIMGFile) :
  (forall s, f (g s) = f s) -> keeps f (update g).
Proof. intros Hg s. apply Hg. Qed.

Lemma keeps_bind {X A B} (f : DCIMGFile -> X) (m : M A) (k : A -> M B) :
  keeps f m -> (forall a, keeps f (k a)) -> keeps f (bind m k).
Proof.
  intros Hm Hk s. unfold bind. specialize (Hm s).
  destruct (m s) as [[a | e |] s1]; cbn [snd] in *.
  - rewrite (Hk a s1). exact Hm.
  - exact Hm.
  - exact Hm.
Qed.

Lemma keeps_setitem_corner (a : ndarray) (i : Z) (px : ndarray) :
  keeps headers (setitem_corner a i px).
Proof.
  intros s. unfold setitem_corner.
  repeat (destruct_innermost; try reflexivity).
Qed.

Lemma keeps_layer_loop (a : ndarray) (count : nat) :
  forall i index, keeps headers (layer_loop a count i index).
Proof.
  induction count as [| count IH]; intros i index; cbn [layer_loop].
  - apply keeps_ret.
  - apply keeps_bind; [apply keeps_read | intros px].
    apply keeps_bind; [apply keeps_setitem_corner | intros _].
    apply keeps_bind; [apply keeps_read | intros bd]. apply IH.
Qed.

Lemma keeps_layer (index fpl : Z) (target : option np_dtype) :
  keeps headers (layer index fpl target).
Proof.
  unfold layer.
  repeat (apply keeps_bind; [apply keeps_read | intros ?]).
  apply keeps_bind; [apply keeps_layer_loop | intros _].
  destruct target; [apply keeps_read | apply keeps_ret].
Qed.

Lemma keeps_frame (index : Z) (target : option np_dtype) :
  keeps headers (frame index target).
Proof.
  unfold frame. apply keeps_bind; [apply keeps_layer | intros a]. apply keeps_lift.
Qed.

(** The properties read the headers only. *)
Lemma properties_of_headers (s s' : DCIMGFile) :
  headers s' = headers s ->
  shape s' = shape s
  /\ nfrms s' = nfrms s /\ byte_depth s' = byte_depth s
  /\ xsize s' = xsize s /\ ysize s' = ysize s
  /\ bytes_per_row s' = bytes_per_row s /\ bytes_per_img s' = bytes_per_img s
  /\ header_size s' = header_size s
  /\ session_footer_offset s' = session_footer_offset s
  /\ timestamp_offset s' = timestamp_offset s.
Proof.
  unfold headers. intros [= Hfh Hsh _ _ _].
  unfold shape, timestamp_offset, session_footer_offset, nfrms, byte_depth,
    xsize, ysize, bytes_per_row, bytes_per_img, header_size.
  rewrite Hfh, Hsh. repeat split; reflexivity.
Qed.

(** X4: [layer] and [frame], whatever they are asked and whatever their
    outcome (a view, a copy, an exception in the middle of the loop), change
    nothing of the instance but the bytes of the mapping: both headers, the
    pixel type, the file name and the file size are as before, and so is
    what every property returns. *)
Theorem layer_frame_keep_headers (s : DCIMGFile) (index fpl : Z)
    (target : option np_dtype) :
  let s1 := snd (layer index fpl target s) in
  let s2 := snd (frame index target s) in
  headers s1 = headers s /\ headers s2 = headers s
  /\ shape s1 = shape s /\ shape s2 = shape s
  /\ timestamp_offset s1 = timestamp_offset s
  /\ timestamp_offset s2 = timestamp_offset s.
Proof.
  intros s1 s2.
  pose proof (keeps_layer index fpl target s) as H1.
  pose proof (keeps_frame index target s) as H2.
  fold s1 in H1. fold s2 in H2.
  destruct (properties_of_headers s s1 H1) as (Hs1 & _ & _ & _ & _ & _ & _ & _ & _ & Ht1).
  destruct (properties_of_headers s s2 H2) as (Hs2 & _ & _ & _ & _ & _ & _ & _ & _ & Ht2).
  repeat split; assumption.
Qed.

(** ** Use after [close] and before [open] *)

Lemma timestamps_fold_Raise (s : DCIMGFile) (e : exn) (l : list nat) :
  fold_left (timestamps_step s) l (Raise e) = Raise e.
Proof. induction l as [| i l IH]; [reflexivity | exact IH]. Qed.

(** X5: [close] on an open handle drops the mapping and keeps the headers:
    the properties answer as before, while [timestamps] fails with a
    [TypeError] as soon as the file has a frame (and returns the empty
    sequence when it has none). *)
Theorem close_keeps_headers (s : DCIMGFile) (data : bytes) (fh : file_hdr)
    (sh : sess_hdr) (dt : np_dtype) :
  open_handle s data fh sh dt ->
  let s' := snd (close s) in
  fst (close s) = Ok tt
  /\ mm s' = None
  /\ headers s' = headers s
  /\ shape s' = Ok (sh_nfrms sh, sh_xsize sh, sh_ysize sh)
  /\ (1 <= sh_nfrms sh -> timestamps s' = Raise none_subscript)
  /\ (sh_nfrms sh = 0 -> timestamps s' = Ok []).
Proof.
  intros Hopen s'.
  destruct (open_handle_props s data fh sh dt Hopen)
    as (_ & Hysize & Hxsize & Hn & _ & Hsfo).
  assert (headers s' = headers s) as Hh by reflexivity.
  destruct (properties_of_headers s s' Hh)
    as (Hshape & Hn' & _ & _ & _ & _ & _ & _ & _ & Hoff).
  split; [reflexivity |]. split; [reflexivity |]. split; [exact Hh |].
  split.
  { rewrite Hshape. unfold shape. rewrite Hn, Hxsize, Hysize. reflexivity. }
  assert (exists off, timestamp_offset s' = Ok off) as (off & Hoff').
  { rewrite Hoff. unfold timestamp_offset. rewrite Hsfo, Hn. eexists. reflexivity. }
  rewrite Hn in Hn'.
  split.
  - intros Hpos. unfold timestamps. rewrite Hn', Hoff'. cbn [rbind].
    destruct (Z.to_nat (sh_nfrms sh)) as [| k] eqn:Hk; [lia |].
    assert (forall ts idx i,
              timestamps_step s' (Ok (ts, idx)) i = Raise none_subscript) as Hstep
      by reflexivity.
    cbn [seq fold_left]. rewrite Hstep, timestamps_fold_Raise. reflexivity.
  - intros H0. unfold timestamps. rewrite Hn', Hoff', H0. reflexivity.
Qed.

Lemma close_keeps_headers_witness :
  shape (snd (close sample)) = Ok (3, 4, 4)
  /\ timestamps (snd (close sample)) = Raise none_subscript.
Proof.
  pose proof (close_keeps_headers sample sample_file sample_fh sample_sh uint16
                sample_open_handle) as H.
  cbv zeta in H. destruct H as (_ & _ & _ & Hshape & Hts & _).
  split.
  - rewrite Hshape. by_eval.
  - apply Hts. by_eval.
Defined.

(** X6: on an instance that has never been opened (neither header is set),
    every property, [timestamps], [layer] and [frame] fail with the
    [TypeError] of a subscript applied to [None], without touching the
    instance. *)
Theorem never_opened_raises_TypeError (s : DCIMGFile) :
  file_header s = None -> sess_header s = None ->
  nfrms s = Raise none_subscript
  /\ byte_depth s = Raise none_subscript
  /\ xsize s = Raise none_subscript
  /\ ysize s = Raise none_subscript
  /\ bytes_per_row s = Raise none_subscript
  /\ bytes_per_img s = Raise none_subscript
  /\ shape s = Raise none_subscript
  /\ header_size s = Raise none_subscript
  /\ session_footer_offset s = Raise none_subscript
  /\ timestamp_offset s = Raise none_subscript
  /\ timestamps s = Raise none_subscript
  /\ forall index fpl target,
       layer index fpl target s = (Raise none_subscript, s)
       /\ frame index target s = (Raise none_subscript, s).
Proof.
  intros Hfh Hsh.
  unfold timestamps, shape, timestamp_offset, session_footer_offset, nfrms,
    byte_depth, xsize, ysize, bytes_per_row, bytes_per_img, header_size, first_elem.
  rewrite Hfh, Hsh. repeat split.
  - unfold layer, bind, read, bytes_per_img, first_elem. rewrite Hsh. reflexivity.
  - unfold frame, layer, bind, read, bytes_per_img, first_elem. rewrite Hsh. reflexivity.
Qed.

Lemma never_opened_witness :
  shape fresh = Raise none_subscript
  /\ fst (frame 0 None fresh) = Raise none_subscript.
Proof.
  pose proof (never_opened_raises_TypeError fresh eq_refl eq_refl)
    as (_ & _ & _ & _ & _ & _ & Hshape & _ & _ & _ & _ & Hcalls).
  split; [exact Hshape |].
  rewrite (proj2 (Hcalls 0 1 None)). reflexivity.
Defined.

(** ** The bytes that [layer] writes *)

Lemma ndarray_new_Ok_facts (shp : list Z) (offset : Z) (s : DCIMGFile)
    (data : bytes) (a : ndarray) :
  mm s = Some (Mapped data) ->
  ndarray_new shp offset s = Ok a ->
  exists dt,
    dtype s = Some dt /\ a = View shp dt offset /\ 0 <= offset
    /\ offset + itemsize dt * prod_list shp <= Z.of_nat (length data)
    /\ existsb (fun d => d <? 0) shp = false.
Proof.
  intros Hmm. unfold ndarray_new. rewrite Hmm.
  destruct (dtype s) as [dt |]; [| discriminate].
  destruct (Z.ltb_spec (Z.of_nat (length data)) (offset + itemsize dt * prod_list shp));
    [discriminate |].
  destruct (existsb (fun d => d <? 0) shp) eqn:Hneg; [discriminate |].
  destruct (Z.ltb_spec offset 0); [discriminate |].
  intros [= <-]. exists dt. repeat split; try reflexivity; lia.
Qed.

(** The assignment of the corner pixels either fails and leaves the
    instance as it was, or writes at most [4 * itemsize] bytes at the start
    of frame [i] of the view. *)
Lemma setitem_corner_cases (s : DCIMGFile) (data : bytes) (dt dt' : np_dtype)
    (d0 d1 d2 off i src : Z) :
  mm s = Some (Mapped data) ->
  (0 <= i < d0 /\ 0 < d1 /\ 4 <= d2
   /\ setitem_corner (View [d0; d1; d2] dt off) i (View [1; 1; 4] dt' src) s
      = (Ok tt,
         set_mm (Some (Mapped (poke data (Z.to_nat (off + itemsize dt * (d1 * d2) * i))
                                 (peek data src (4 * itemsize dt))))) s))
  \/ (exists e,
        setitem_corner (View [d0; d1; d2] dt off) i (View [1; 1; 4] dt' src) s
        = (Raise e, s)).
Proof.
  intros Hmm. unfold setitem_corner. rewrite Hmm.
  destruct (Z.leb_spec 0 i); cbn [andb negb]; [| right; eexists; reflexivity].
  destruct (Z.ltb_spec i d0); cbn [andb negb]; [| right; eexists; reflexivity].
  destruct (Z.ltb_spec 0 d1); cbn [negb]; [| right; eexists; reflexivity].
  destruct (Z.eqb_spec (Z.min 4 d2) 4); cbn [negb]; [| right; eexists; reflexivity].
  left. repeat split; try lia.
  unfold elem_pos. do 6 f_equal. lia.
Qed.

Section Footprint.

Variables (dt : np_dtype) (d0 d1 d2 off : Z).
Hypothesis Hoff : 0 <= off.

(** The size of an element and of a frame of the view. *)
Let bd : Z := itemsize dt.
Let F : Z := bd * (d1 * d2).

(** The loop of [layer], whatever its outcome, leaves a mapping of the same
    length that differs from the one before in corner blocks only. *)
Lemma layer_loop_footprint (k : nat) :
  forall (i0 idx : Z) (s : DCIMGFile) (data : bytes),
    mm s = Some (Mapped data) ->
    off + bd * (d0 * d1 * d2) <= Z.of_nat (length data) ->
    exists data',
      snd (layer_loop (View [d0; d1; d2] dt off) k i0 idx s)
      = set_mm (Some (Mapped data')) s
      /\ length data' = length data
      /\ forall j, off_corners bd F off d0 j -> data' !! j = data !! j.
Proof.
  pose proof (itemsize_range dt) as Hbd. fold bd in Hbd.
  induction k as [| k IH]; intros i0 idx s data Hmm Hfit.
  - exists data. cbn [layer_loop]. unfold ret. cbn [snd].
    rewrite (set_mm_same s _ Hmm). repeat split; reflexivity.
  - assert (exists data', s = set_mm (Some (Mapped data')) s
                          /\ length data' = length data
                          /\ forall j, off_corners bd F off d0 j -> data' !! j = data !! j)
      as Hsame.
    { exists data. rewrite (set_mm_same s _ Hmm). repeat split; reflexivity. }
    cbn [layer_loop]. unfold bind at 1, read at 1.
    destruct (ndarray_new [1; 1; 4] idx s) as [px | e |] eqn:Hpx;
      [| exact Hsame | exact Hsame].
    apply ndarray_new_Ok_inv in Hpx. destruct Hpx as (dt' & ->).
    unfold bind at 1.
    destruct (setitem_corner_cases s data dt dt' d0 d1 d2 off i0 idx Hmm)
      as [(Hi0 & Hd1 & Hd2 & Hset) | (e & Hset)]; rewrite Hset;
      [| exact Hsame].
    fold bd F.
    set (block := peek data idx (4 * bd)).
    set (data1 := poke data (Z.to_nat (off + F * i0)) block).
    set (s1 := set_mm (Some (Mapped data1)) s).
    assert (length data1 = length data) as Hl1 by apply length_poke.
    assert (4 <= d1 * d2) as Hd12 by nia.
    assert (4 * bd <= F) as HF by (unfold F; nia).
    assert (0 <= F * i0) as HFi0 by (apply Z.mul_nonneg_nonneg; lia).
    assert (F * (i0 + 1) <= F * d0) as Hfr by (apply Z.mul_le_mono_nonneg_l; lia).
    assert (F * d0 = bd * (d0 * d1 * d2)) as HFd0 by (unfold F; lia).
    assert (length block <= Z.to_nat (4 * bd))%nat as Hblock
      by (unfold block, peek; rewrite length_take; lia).
    assert (forall j, off_corners bd F off d0 j -> data1 !! j = data !! j) as Hout.
    { intros j Hj. unfold data1. rewrite lookup_poke by lia.
      rewrite bool_decide_false; [reflexivity |].
      specialize (Hj i0 Hi0). lia. }
    assert (exists data', s1 = set_mm (Some (Mapped data')) s
                          /\ length data' = length data
                          /\ forall j, off_corners bd F off d0 j -> data' !! j = data !! j)
      as Hsame1.
    { exists data1. repeat split; [exact Hl1 | exact Hout]. }
    unfold bind at 1, read at 1.
    destruct (byte_depth s1) as [bd1 | e |]; [| exact Hsame1 | exact Hsame1].
    destruct (IH (i0 + 1) (i64 (idx + i64 (4 * bd1))) s1 data1 eq_refl)
      as (data' & Hrun & Hl & Hkeep); [lia |].
    exists data'. split; [rewrite Hrun; reflexivity |].
    split; [lia |].
    intros j Hj. rewrite (Hkeep j Hj). exact (Hout j Hj).
Qed.

End Footprint.

(** The mapping after a call of [layer] on an open handle, whatever the
    request and the outcome. *)
Lemma layer_footprint_any (s : DCIMGFile) (data : bytes) (fh : file_hdr)
    (sh : sess_hdr) (dt : np_dtype) (index fpl : Z) (target : option np_dtype) :
  open_handle s data fh sh dt ->
  let bd := itemsize dt in
  let off := i64 (232 + i64 (i64 (sh_bytes_per_img sh * fpl) * index)) in
  exists data',
    snd (layer index fpl target s) = set_mm (Some (Mapped data')) s
    /\ length data' = length data
    /\ forall j,
         off_corners bd (bd * (sh_ysize sh * sh_xsize sh)) off fpl j ->
         data' !! j = data !! j.
Proof.
  intros Hopen bd off.
  destruct (open_handle_props s data fh sh dt Hopen)
    as (Hbpi & Hysize & Hxsize & Hn & Hdepth & Hsfo).
  destruct Hopen as (Hmm & _ & _ & Hdt & _).
  assert (exists data', s = set_mm (Some (Mapped data')) s
                        /\ length data' = length data
                        /\ forall j,
                             off_corners bd (bd * (sh_ysize sh * sh_xsize sh)) off fpl j ->
                             data' !! j = data !! j) as Hsame.
  { exists data. rewrite (set_mm_same s _ Hmm). repeat split; reflexivity. }
  unfold layer.
  unfold bind at 1, read at 1. rewrite Hbpi.
  unfold bind at 1, read at 1. rewrite Hysize.
  unfold bind at 1, read at 1. rewrite Hxsize.
  fold off.
  unfold bind at 1, read at 1.
  destruct (ndarray_new [fpl; sh_ysize sh; sh_xsize sh] off s) as [a | e |] eqn:Hnew;
    [| exact Hsame | exact Hsame].
  destruct (ndarray_new_Ok_facts _ _ _ _ _ Hmm Hnew) as (dt' & Hdt' & -> & Hoff & Hfit & _).
  rewrite Hdt in Hdt'. injection Hdt' as <-.
  assert (prod_list [fpl; sh_ysize sh; sh_xsize sh] = fpl * sh_ysize sh * sh_xsize sh)
    as Hprod by (cbn; lia).
  rewrite Hprod in Hfit.
  unfold bind at 1, read at 1. rewrite Hsfo.
  unfold bind at 1, read at 1. rewrite Hn.
  unfold bind at 1, read at 1. rewrite Hdepth.
  match goal with
  | |- context [layer_loop ?a ?k ?i ?idx] =>
      destruct (layer_loop_footprint dt fpl (sh_ysize sh) (sh_xsize sh) off Hoff
                  k i idx s data Hmm Hfit) as (data' & Hrun & Hlen & Hkeep)
  end.
  exists data'. split; [| split; [exact Hlen | exact Hkeep]].
  unfold bind at 1.
  match goal with
  | |- context [layer_loop ?a ?k ?i ?idx s] =>
      destruct (layer_loop a k i idx s) as [[[] | e |] s1]
  end; cbn [snd] in Hrun |- *; try exact Hrun.
  destruct target; exact Hrun.
Qed.

(** X7: on an open handle, [layer], whatever it is asked and whatever its
    outcome, leaves a mapping of the same length, and changes in it no byte
    outside the first four elements of the frames of the view it was asked
    for. *)
Theorem layer_writes_corners_only (s : DCIMGFile) (data : bytes) (fh : file_hdr)
    (sh : sess_hdr) (dt : np_dtype) (index fpl : Z) (target : option np_dtype) :
  open_handle s data fh sh dt ->
  let bd := itemsize dt in
  let off := i64 (232 + i64 (i64 (sh_bytes_per_img sh * fpl) * index)) in
  exists data',
    mm (snd (layer index fpl target s)) = Some (Mapped data')
    /\ length data' = length data
    /\ forall j,
         (forall i, 0 <= i < fpl ->
            ~ (off + bd * (sh_ysize sh * sh_xsize sh) * i <= Z.of_nat j
               < off + bd * (sh_ysize sh * sh_xsize sh) * i + 4 * bd)) ->
         data' !! j = data !! j.
Proof.
  intros Hopen bd off.
  destruct (layer_footprint_any s data fh sh dt index fpl target Hopen)
    as (data' & Hstate & Hlen & Hkeep).
  exists data'. rewrite Hstate. split; [reflexivity |].
  split; [exact Hlen | exact Hkeep].
Qed.

Lemma layer_writes_corners_only_witness :
  exists data',
    mm (snd (layer 1 1 None sample)) = Some (Mapped data')
    /\ length data' = length sample_file
    /\ data' !! 300%nat = sample_file !! 300%nat.
Proof.
  pose proof (layer_writes_corners_only sample sample_file sample_fh sample_sh uint16
                1 1 None sample_open_handle) as H.
  cbv zeta in H. destruct H as (data' & Hmm & Hlen & Hkeep).
  exists data'. split; [exact Hmm |]. split; [exact Hlen |].
  apply Hkeep. intros i Hi. assert (i = 0) as -> by lia.
  vm_compute. intros [_ H]. discriminate H.
Defined.

Section LayerBytes.

Variables (s : DCIMGFile) (data : bytes) (fh : file_hdr) (sh : sess_hdr)
  (dt : np_dtype) (index fpl : Z).
Hypothesis Hopen : open_handle s data fh sh dt.

Let bd : Z := itemsize dt.
Let ys : Z := sh_ysize sh.
Let xs : Z := sh_xsize sh.
Let F : Z := bd * (ys * xs).
Let offset : Z := 232 + sh_bytes_per_img sh * fpl * index.
Let corner : Z :=
  footer_offset fh sh + 272 + sh_nfrms sh * (4 + 8) + 4 * bd * (index * fpl).

Hypothesis Hindex : 0 <= index.
Hypothesis Hfpl : 0 <= fpl.
Hypothesis Hys : 1 <= ys.
Hypothesis Hxs : 4 <= xs.
Hypothesis Hmul1 : sh_bytes_per_img sh * fpl < 2 ^ 63.
Hypothesis Hmul2 : 4 * bd * index < 2 ^ 63.
Hypothesis Hbefore : offset + bd * (fpl * ys * xs) <= corner.
Hypothesis Hwithin : corner + 4 * bd * fpl <= Z.of_nat (length data).
Hypothesis Hmax : Z.of_nat (length data) < 2 ^ 63.




End LayerBytes.


(** A position outside the view is in no corner block. *)
Lemma off_corners_outside (bd F off d0 : Z) (j : nat) :
  0 <= F -> 4 * bd <= F ->
  Z.of_nat j < off \/ off + F * d0 <= Z.of_nat j ->
  off_corners bd F off d0 j.
Proof.
  intros HF H4 Hout i Hi [Hlo Hhi].
  assert (0 <= F * i) by (apply Z.mul_nonneg_nonneg; lia).
  assert (F * (i + 1) <= F * d0) by (apply Z.mul_le_mono_nonneg_l; lia).
  lia.
Qed.



(** ** The elements of the arrays *)

Lemma arr_get_view3 (s : DCIMGFile) (dt : np_dtype) (d0 d1 d2 off i y x : Z) :
  0 <= i < d0 -> 0 <= y < d1 -> 0 <= x < d2 ->
  arr_get s (View [d0; d1; d2] dt off) [i; y; x]
  = flat_get s (View [d0; d1; d2] dt off) ((i * d1 + y) * d2 + x).
Proof.
  intros Hi Hy Hx. unfold arr_get. cbn [arr_shape flat_index].
  destruct (Z.leb_spec 0 i); [| lia]. destruct (Z.ltb_spec i d0); [| lia].
  destruct (Z.leb_spec 0 y); [| lia]. destruct (Z.ltb_spec y d1); [| lia].
  destruct (Z.leb_spec 0 x); [| lia]. destruct (Z.ltb_spec x d2); [| lia].
  cbn [andb]. replace ((0 * d0 + i) * d1 + y) with (i * d1 + y) by lia.
  reflexivity.
Qed.

Lemma arr_get_view2 (s : DCIMGFile) (dt : np_dtype) (d1 d2 off y x : Z) :
  0 <= y < d1 -> 0 <= x < d2 ->
  arr_get s (View [d1; d2] dt off) [y; x]
  = flat_get s (View [d1; d2] dt off) (y * d2 + x).
Proof.
  intros Hy Hx. unfold arr_get. cbn [arr_shape flat_index].
  destruct (Z.leb_spec 0 y); [| lia]. destruct (Z.ltb_spec y d1); [| lia].
  destruct (Z.leb_spec 0 x); [| lia]. destruct (Z.ltb_spec x d2); [| lia].
  cbn [andb]. replace (0 * d1 + y) with y by lia. reflexivity.
Qed.


Section LayerElems.

Variables (s : DCIMGFile) (data : bytes) (fh : file_hdr) (sh : sess_hdr)
  (dt : np_dtype) (index fpl : Z).
Hypothesis Hopen : open_handle s data fh sh dt.

Let bd : Z := itemsize dt.
Let ys : Z := sh_ysize sh.
Let xs : Z := sh_xsize sh.
Let offset : Z := 232 + sh_bytes_per_img sh * fpl * index.
Let corner : Z :=
  footer_offset fh sh + 272 + sh_nfrms sh * (4 + 8) + 4 * bd * (index * fpl).

Hypothesis Hindex : 0 <= index.
Hypothesis Hfpl : 0 <= fpl.
Hypothesis Hys : 1 <= ys.
Hypothesis Hxs : 4 <= xs.
Hypothesis Hmul1 : sh_bytes_per_img sh * fpl < 2 ^ 63.
Hypothesis Hmul2 : 4 * bd * index < 2 ^ 63.
Hypothesis Hbefore : offset + bd * (fpl * ys * xs) <= corner.
Hypothesis Hwithin : corner + 4 * bd * fpl <= Z.of_nat (length data).
Hypothesis Hmax : Z.of_nat (length data) < 2 ^ 63.

(** The run of [layer] without a target type on a request in range, with
    the elements of the view it returns. *)
Lemma layer_elements :
  exists s1,
    layer index fpl None s = (Ok (View [fpl; ys; xs] dt offset), s1)
    /\ forall i y x,
         0 <= i < fpl -> 0 <= y < ys -> 0 <= x < xs ->
         flat_get s1 (View [fpl; ys; xs] dt offset) ((i * ys + y) * xs + x)
         = Some (restored_elem data dt ys xs offset corner i y x).
Proof.
  pose proof (itemsize_range dt) as Hbd. fold bd in Hbd.
  destruct (layer_run s data fh sh dt index fpl Hopen Hindex Hfpl Hys Hxs Hmul1 Hmul2
              Hbefore Hwithin Hmax) as (data' & Hrun & Hlen & Hin).
  fold bd ys xs offset corner in Hrun, Hin.
  eexists. split; [exact Hrun |].
  intros i y x Hi Hy Hx.
  destruct (frame_elem_bounds ys xs y x Hy Hx) as [Hlo Hhi].
  set (e := y * xs + x) in *.
  assert (0 <= bd * (ys * xs) * i) as HFi
    by (repeat apply Z.mul_nonneg_nonneg; lia).
  assert (bd * e + bd <= bd * (ys * xs)) as Hebd.
  { replace (bd * e + bd) with (bd * (e + 1)) by lia.
    apply Z.mul_le_mono_nonneg_l; lia. }
  assert (0 <= bd * e) as Hbe by (apply Z.mul_nonneg_nonneg; lia).
  assert (bd * (ys * xs) * (i + 1) <= bd * (ys * xs) * fpl) as Hframes
    by (apply Z.mul_le_mono_nonneg_l; [apply Z.mul_nonneg_nonneg; lia | lia]).
  assert (bd * (ys * xs) * fpl = bd * (fpl * ys * xs)) as Hview by lia.
  assert (0 <= 4 * bd * i) as Hci by (apply Z.mul_nonneg_nonneg; lia).
  assert (0 <= 4 * bd * fpl) as Hcfpl by (apply Z.mul_nonneg_nonneg; lia).
  assert (4 * bd * (i + 1) <= 4 * bd * fpl) as Hcf
    by (apply Z.mul_le_mono_nonneg_l; lia).
  assert (offset + bd * ((i * ys + y) * xs + x) = offset + bd * (ys * xs) * i + bd * e)
    as Hpos by (unfold e; lia).
  assert (0 <= offset) as Hoff.
  { unfold offset. destruct Hopen as (_ & _ & _ & _ & _ & _ & _ & _ & _ & Hb & _).
    assert (0 <= sh_bytes_per_img sh * fpl * index)
      by (repeat apply Z.mul_nonneg_nonneg; lia).
    lia. }
  unfold flat_get, restored_elem. cbn [mm set_mm]. fold bd. rewrite Hpos.
  set (pos := offset + bd * (ys * xs) * i + bd * e) in *.
  destruct (Z.leb_spec 0 pos); [| lia].
  destruct (Z.leb_spec (pos + bd) (Z.of_nat (length data'))); [| lia].
  cbn [andb]. f_equal. unfold elem_at. fold bd.
  destruct (decide (y = 0 /\ x < 4)) as [[Hy0 Hx4] | Hnc].
  - subst y. destruct (Z.ltb_spec x 4); [| lia]. cbn [Z.eqb andb].
    assert (0 <= bd * x) as Hbx by (apply Z.mul_nonneg_nonneg; lia).
    assert (bd * x + bd <= 4 * bd) as Hx4'.
    { replace (bd * x + bd) with (bd * (x + 1)) by lia.
      replace (4 * bd) with (bd * 4) by lia.
      apply Z.mul_le_mono_nonneg_l; lia. }
    f_equal. apply peek_ext; [lia | lia |].
    intros m Hm.
    rewrite (Hin i (Z.to_nat pos + m)%nat Hi) by lia.
    rewrite bool_decide_true by (unfold pos, e; lia).
    f_equal. unfold pos, e. lia.
  - assert (4 <= e) as He4 by (apply frame_elem_after_corner; lia).
    assert (4 * bd <= bd * e) as He4'.
    { replace (4 * bd) with (bd * 4) by lia.
      apply Z.mul_le_mono_nonneg_l; lia. }
    assert ((y =? 0) && (x <? 4) = false) as ->.
    { destruct (Z.eqb_spec y 0); [| reflexivity].
      destruct (Z.ltb_spec x 4); [lia | reflexivity]. }
    f_equal. apply peek_ext; [lia | lia |].
    intros m Hm.
    rewrite (Hin i (Z.to_nat pos + m)%nat Hi) by lia.
    rewrite bool_decide_false by lia. reflexivity.
Qed.

End LayerElems.

(** ** The timestamps after a call of [layer] *)

(** A slice of two sequences of the same length that agree from its lower
    bound on. *)
Lemma py_slice_ext {A} (l1 l2 : list A) (lo hi : Z) :
  length l1 = length l2 -> 0 <= lo ->
  (forall j : nat, lo <= Z.of_nat j -> l1 !! j = l2 !! j) ->
  py_slice l1 lo hi = py_slice l2 lo hi.
Proof.
  intros Hlen Hlo Hagree. unfold py_slice. rewrite Hlen.
  set (n := Z.of_nat (length l2)).
  assert (slice_bound n lo = Z.min lo n) as Hb.
  { unfold slice_bound. destruct (Z.ltb_spec lo 0); [lia | reflexivity]. }
  rewrite Hb. f_equal.
  apply list_eq. intros k. rewrite !lookup_drop.
  destruct (decide (lo <= Z.of_nat (Z.to_nat (Z.min lo n) + k))) as [Hge | Hlt].
  - apply Hagree, Hge.
  - rewrite !(proj2 (lookup_ge_None _ _)); [reflexivity | |]; unfold n in *; lia.
Qed.

(** Two mappings of the same length that agree from [off] on hold the same
    timestamp at every cursor from [off] on. *)
Lemma timestamp_at_ext (d1 d2 : bytes) (off p : Z) :
  length d1 = length d2 -> 0 <= off -> off <= p ->
  (forall j : nat, off <= Z.of_nat j -> d1 !! j = d2 !! j) ->
  timestamp_at d1 p = timestamp_at d2 p.
Proof.
  intros Hlen Hoff Hp Hagree. unfold timestamp_at.
  rewrite (py_slice_ext d1 d2 p) by (try lia; intros j Hj; apply Hagree; lia).
  rewrite (py_slice_ext d1 d2 (p + 4)) by (try lia; intros j Hj; apply Hagree; lia).
  reflexivity.
Qed.

(** X9: a call of [layer] on an open handle, whatever its index, count and
    target type and whatever its outcome, does not change what [timestamps]
    returns, when the view it asks for (frames of at least one row of at
    least four elements) ends at or before the table of the timestamps. *)
Theorem timestamps_after_layer (s : DCIMGFile) (data : bytes) (fh : file_hdr)
    (sh : sess_hdr) (dt : np_dtype) (index fpl : Z) (target : option np_dtype)
    (table : Z) :
  open_handle s data fh sh dt ->
  let bd := itemsize dt in
  let off := i64 (232 + i64 (i64 (sh_bytes_per_img sh * fpl) * index)) in
  timestamp_offset s = Ok table ->
  0 <= fpl -> 1 <= sh_ysize sh -> 4 <= sh_xsize sh ->
  0 <= off ->
  off + bd * (sh_ysize sh * sh_xsize sh) * fpl <= table ->
  timestamps (snd (layer index fpl target s)) = timestamps s.
Proof.
  intros Hopen bd off Htable Hfpl Hys Hxs Hoff Hend.
  pose proof (itemsize_range dt) as Hbd. fold bd in Hbd.
  destruct (layer_footprint_any s data fh sh dt index fpl target Hopen)
    as (data' & Hstate & Hlen & Hkeep).
  fold bd off in Hkeep. rewrite Hstate.
  destruct (open_handle_props s data fh sh dt Hopen)
    as (_ & _ & _ & Hn & _ & _).
  destruct Hopen as (Hmm & _).
  set (F := bd * (sh_ysize sh * sh_xsize sh)) in *.
  assert (4 <= sh_ysize sh * sh_xsize sh) as Hyx by nia.
  assert (4 * bd <= F) as HF4 by (unfold F; nia).
  destruct (timestamps_mapped s data (sh_nfrms sh) table Hmm Hn Htable)
    as (ts & Hts & Hl & Hget).
  destruct (timestamps_mapped (set_mm (Some (Mapped data')) s) data' (sh_nfrms sh)
              table eq_refl Hn Htable) as (ts' & Hts' & Hl' & Hget').
  rewrite Hts, Hts'. f_equal.
  apply list_eq. intros i.
  destruct (decide (i < Z.to_nat (sh_nfrms sh))%nat) as [Hi | Hi].
  - rewrite (Hget i Hi), (Hget' i Hi). f_equal.
    apply (timestamp_at_ext data' data table); [exact Hlen | lia | lia |].
    intros j Hj. apply Hkeep. apply off_corners_outside; lia.
  - rewrite !(proj2 (lookup_ge_None _ _)); [reflexivity | lia | lia].
Qed.

Lemma timestamps_after_layer_witness :
  timestamps (snd (layer 1 2 (Some uint8) sample)) = timestamps sample.
Proof.
  pose proof (timestamps_after_layer sample sample_file sample_fh sample_sh uint16
                1 2 (Some uint8) 612 sample_open_handle) as H.
  cbv zeta in H.
  exact (H ltac:(by_eval) ltac:(by_eval) ltac:(by_eval) ltac:(by_eval)
           ltac:(by_eval) ltac:(by_eval)).
Defined.

(** ** [frame] and the target type of [layer] *)


(** [frame] without a target type is [layer] on one frame, followed by
    [np.squeeze] without an axis. *)
Lemma frame_None (index : Z) (s : DCIMGFile) (a : ndarray) (s1 : DCIMGFile) :
  layer index 1 None s = (Ok a, s1) ->
  frame index None s
  = (Ok (match a with
         | View shp dt off => View (filter (fun d => d ≠ 1) shp) dt off
         | Owned shp dt elems => Owned (filter (fun d => d ≠ 1) shp) dt elems
         end), s1).
Proof.
  intros Hrun. unfold frame, bind. rewrite Hrun.
  destruct a; reflexivity.
Qed.

(** X10: [frame(index)] on a request in range, for frames of more than one
    row, returns the view of [layer(index)] without its leading axis: the
    shape is (ysize, xsize), the view is at the same offset of the same
    mapping, and its element (y, x) is the element (0, y, x) of the layer,
    the first four elements of row 0 coming from the corner table. *)
Theorem frame_is_layer_squeezed (s : DCIMGFile) (data : bytes) (fh : file_hdr)
    (sh : sess_hdr) (dt : np_dtype) (index : Z) :
  open_handle s data fh sh dt ->
  let bd := itemsize dt in
  let ys := sh_ysize sh in
  let xs := sh_xsize sh in
  let offset := 232 + sh_bytes_per_img sh * index in
  let corner :=
    footer_offset fh sh + 272 + sh_nfrms sh * (4 + 8) + 4 * bd * index in
  0 <= index -> 2 <= ys -> 4 <= xs ->
  4 * bd * index < 2 ^ 63 ->
  offset + bd * (ys * xs) <= corner ->
  corner + 4 * bd <= Z.of_nat (length data) ->
  Z.of_nat (length data) < 2 ^ 63 ->
  exists s1,
    layer index 1 None s = (Ok (View [1; ys; xs] dt offset), s1)
    /\ frame index None s = (Ok (View [ys; xs] dt offset), s1)
    /\ forall y x,
         0 <= y < ys -> 0 <= x < xs ->
         arr_get s1 (View [ys; xs] dt offset) [y; x]
         = arr_get s1 (View [1; ys; xs] dt offset) [0; y; x]
         /\ arr_get s1 (View [ys; xs] dt offset) [y; x]
            = Some (restored_elem data dt ys xs offset corner 0 y x).
Proof.
  intros Hopen bd ys xs offset corner Hindex Hys Hxs Hmul2 Hbefore Hwithin Hmax.
  assert (sh_bytes_per_img sh * 1 < 2 ^ 63) as Hmul1.
  { destruct Hopen as (_ & _ & _ & _ & _ & _ & _ & _ & _ & Hb & _). lia. }
  destruct (layer_elements s data fh sh dt index 1 Hopen Hindex ltac:(lia)
              ltac:(fold ys; lia) Hxs Hmul1 Hmul2) as (s1 & Hrun & Helems).
  { fold bd ys xs. replace (sh_bytes_per_img sh * 1 * index)
      with (sh_bytes_per_img sh * index) by lia.
    replace (index * 1) with index by lia.
    replace (1 * ys * xs) with (ys * xs) by lia. exact Hbefore. }
  { fold bd. replace (index * 1) with index by lia. lia. }
  { exact Hmax. }
  fold bd ys xs in Hrun, Helems.
  replace (sh_bytes_per_img sh * 1 * index)
    with (sh_bytes_per_img sh * index) in Hrun, Helems by lia.
  replace (index * 1) with index in Helems by lia.
  fold offset in Hrun, Helems. fold corner in Helems.
  exists s1. split; [exact Hrun |]. split.
  - rewrite (frame_None index s _ s1 Hrun). do 3 f_equal.
    cbn [filter list_filter]. unfold filter; cbn.
    repeat match goal with
           | |- context [decide ?P] => destruct (decide P)
           end; try lia; try reflexivity; try congruence.
  - intros y x Hy Hx.
    rewrite arr_get_view2 by assumption.
    rewrite arr_get_view3 by (try assumption; lia).
    specialize (Helems 0 y x ltac:(lia) Hy Hx).
    replace ((0 * ys + y) * xs + x) with (y * xs + x) in * by lia.
    split; [reflexivity | exact Helems].
Qed.

Lemma frame_is_layer_squeezed_witness :
  exists s1,
    layer 1 1 None sample = (Ok (View [1; 4; 4] uint16 264), s1)
    /\ frame 1 None sample = (Ok (View [4; 4] uint16 264), s1)
    /\ forall y x,
         0 <= y < 4 -> 0 <= x < 4 ->
         arr_get s1 (View [4; 4] uint16 264) [y; x]
         = arr_get s1 (View [1; 4; 4] uint16 264) [0; y; x]
         /\ arr_get s1 (View [4; 4] uint16 264) [y; x]
            = Some (restored_elem sample_file uint16 4 4 264 644 0 y x).
Proof.
  pose proof (frame_is_layer_squeezed sample sample_file sample_fh sample_sh uint16 1
                sample_open_handle) as H.
  cbv zeta in H.
  exact (H ltac:(by_eval) ltac:(by_eval) ltac:(by_eval) ltac:(by_eval)
           ltac:(by_eval) ltac:(by_eval) ltac:(by_eval)).
Defined.



(** ** A layer and its frames *)


